(** * eidas: certificate signing requests for QWAC and QSEAL certificates

    A shallow embedding of [csr.go] (package [eidas]) and the properties of
    its request assembly: the per-type key usage and extended key usage
    tables, the extension builders, the ordered subject, the request
    assembler [GenerateCSRWithKey] and the key-provisioning wrapper
    [GenerateCSR].

    Conventions.
    - A Go [int], [uint] or [uint16] is a [Z]; wrap-around is written out
      where the code relies on it.  A byte is a [Z] in [0, 256).
    - A Go slice or pointer that a function returns is an [option]: [None]
      is Go's [nil].  A returned [error] is an [option] of its message.
      A Go function returning [(v, err)] is a pair of the two.
    - Functions of the Go standard library and of package [qcstatements]
      that the code calls but that are not part of [csr.go] are either
      modelled on the bytes they emit (DER bit strings, octet strings and
      object identifiers) or taken as an interface ([Platform],
      [qcstatements.Package]); they return a [result], following Go's convention
      that the value is meaningful exactly when the error is nil.
    - [rand.Reader] is an explicit entropy state threaded through the calls
      that read it. *)

From Stdlib Require Import ZArith String Ascii Bool Lia DecimalString List.
Import ListNotations.

Local Open Scope Z_scope.

(** ** Go values *)

Module Go.

Definition byte := Z.
Definition error := string.

(** What a library call hands back: a value, or the error it failed with. *)
Inductive result (A : Type) : Type :=
| Ok (a : A)
| Err (e : error).
Arguments Ok {A} a.
Arguments Err {A} e.

(** A slice-typed (or pointer-typed) value that may be [nil]. *)
Definition nilable (A : Type) := option A.

(** The elements a [range] loop visits: none for a nil slice. *)
Definition elems {A} (s : nilable (list A)) : list A :=
  match s with
  | Some l => l
  | None => []
  end.

(** Go's [len]: 0 for a nil slice. *)
Definition len {A} (s : nilable (list A)) : Z := Z.of_nat (length (elems s)).

(** [return v, err] for a call [v, err := f(...)] that is passed on as is. *)
Definition returned {A} (r : result A) : nilable A * option error :=
  match r with
  | Ok a => (Some a, None)
  | Err e => (None, Some e)
  end.

(** The error plumbing of a function that gives up at the first failure:
    [x <- e ;; k] is [x, err := e; if err != nil { return nil, err }; k]. *)
Definition bind {A B} (r : result A) (k : A -> result B) : result B :=
  match r with
  | Ok a => k a
  | Err e => Err e
  end.

(** [fmt.Errorf(prefix + "%v", err)] on the failure of a call. *)
Definition wrapErr {A} (prefix : string) (r : result A) : result A :=
  match r with
  | Ok a => Ok a
  | Err e => Err (prefix ++ e)%string
  end.

(** The test [if err != nil] on a returned pair. *)
Definition checked {A} (r : nilable A * option error) : result (nilable A) :=
  match snd r with
  | Some e => Err e
  | None => Ok (fst r)
  end.

(** [strconv.Itoa] for a Go [int]. *)
Definition itoa (z : Z) : string := NilZero.string_of_int (Z.to_int z).

(** Unsigned arithmetic as the code uses it. *)
Definition uint (z : Z) : Z := z mod 2 ^ 64.
Definition uint_sub (a b : Z) : Z := (a - b) mod 2 ^ 64.

(** [x << s] on a [uint16] with an unsigned shift count: the bits that
    leave the 16-bit word are lost, and a count of 16 or more gives 0. *)
Definition uint16_shl (x s : Z) : Z :=
  if s <? 16 then Z.shiftl x s mod 2 ^ 16 else 0.

(** [binary.LittleEndian.PutUint16] on a fresh 2-byte buffer. *)
Definition PutUint16_le (v : Z) : list byte :=
  [v mod 256; Z.shiftr v 8 mod 256].

End Go.
Import Go.

Notation "x <- e ;; k" := (Go.bind e (fun x => k))
  (at level 61, e at next level, right associativity).

(** ** encoding/asn1 *)

Module asn1.

(** [asn1.ObjectIdentifier] is [[]int]. *)
Definition ObjectIdentifier := list Z.

(** [ObjectIdentifier.Equal]: same length and the same arc at every index. *)
Definition Equal (oi other : ObjectIdentifier) : bool :=
  if negb (Nat.eqb (length oi) (length other)) then false
  else forallb (fun p => fst p =? snd p) (combine oi other).

(** [ObjectIdentifier.String]: the arcs in decimal, separated by dots. *)
Fixpoint String_from (first : bool) (oi : ObjectIdentifier) : string :=
  match oi with
  | [] => EmptyString
  | v :: rest =>
      ((if first then "" else ".") ++ itoa v ++ String_from false rest)%string
  end.
Definition String (oi : ObjectIdentifier) : string := String_from true oi.

Record BitString := { Bytes : list byte; BitLength : Z }.

(** The big-endian bytes [i >> 8(n-1)], ..., [i >> 8], [i] of [appendLength]. *)
Fixpoint appendLength (n : nat) (i : Z) : list byte :=
  match n with
  | O => []
  | S m => Z.shiftr i (8 * Z.of_nat m) mod 256 :: appendLength m i
  end.

(** [lengthLength]: one byte, and one more for every time [i] still exceeds
    255 after a shift by 8.  A Go [int] has at most 8 bytes. *)
Fixpoint lengthLength_loop (fuel : nat) (i : Z) : nat :=
  match fuel with
  | O => 1
  | S f => if 255 <? i then S (lengthLength_loop f (Z.shiftr i 8)) else 1
  end.
Definition lengthLength (i : Z) : nat := lengthLength_loop 8 i.

(** [appendTagAndLength] for a universal tag below 31: the identifier
    octet, then the short or the long form of the length. *)
Definition tagAndLength (tag : Z) (length : Z) : list byte :=
  tag ::
  (if 128 <=? length
   then Z.lor 0x80 (Z.of_nat (lengthLength length)) :: appendLength (lengthLength length) length
   else [length mod 256]).

Definition TagBitString : Z := 3.
Definition TagOctetString : Z := 4.
Definition TagOID : Z := 6.
Definition TagSequenceConstructed : Z := 0x30.

(** [asn1.Marshal] of a [BitString]: the count of unused bits of the last
    byte, computed from [BitLength] alone, then [Bytes] as they are. *)
Definition Marshal_BitString (b : BitString) : list byte :=
  tagAndLength TagBitString (Z.of_nat (length (Bytes b)) + 1)
    ++ Z.rem (8 - Z.rem (BitLength b) 8) 8 mod 256 :: Bytes b.

(** [asn1.Marshal] of a [[]byte]: an OCTET STRING.  It cannot fail. *)
Definition Marshal_bytes (b : list byte) : list byte :=
  tagAndLength TagOctetString (Z.of_nat (length b)) ++ b.

(** [base128IntLength] and [appendBase128Int]. *)
Fixpoint base128IntLength_loop (fuel : nat) (i : Z) : nat :=
  match fuel with
  | O => 0
  | S f => if 0 <? i then S (base128IntLength_loop f (Z.shiftr i 7)) else 0
  end.
Definition base128IntLength (n : Z) : nat :=
  if n =? 0 then 1 else base128IntLength_loop 10 n.

Fixpoint appendBase128Int_loop (i : nat) (n : Z) : list byte :=
  match i with
  | O => []
  | S j =>
      Z.lor (Z.land (Z.shiftr n (Z.of_nat j * 7) mod 256) 0x7f)
            (if Nat.eqb j 0 then 0 else 0x80)
      :: appendBase128Int_loop j n
  end.
Definition appendBase128Int (n : Z) : list byte :=
  appendBase128Int_loop (base128IntLength n) n.

(** [makeObjectIdentifier] and [oidEncoder.Encode]. *)
Definition encodeObjectIdentifier (oid : ObjectIdentifier) : result (list byte) :=
  match oid with
  | o0 :: o1 :: rest =>
      if (2 <? o0) || ((o0 <? 2) && (40 <=? o1))
      then Err "asn1: structure error: invalid object identifier"%string
      else Ok (appendBase128Int (o0 * 40 + o1) ++ concat (map appendBase128Int rest))
  | _ => Err "asn1: structure error: invalid object identifier"%string
  end.

Definition Marshal_ObjectIdentifier (oid : ObjectIdentifier) : result (list byte) :=
  match encodeObjectIdentifier oid with
  | Ok body => Ok (tagAndLength TagOID (Z.of_nat (length body)) ++ body)
  | Err e => Err e
  end.

(** [asn1.Marshal] of a [[]ObjectIdentifier]: a SEQUENCE of the elements,
    failing with the first element that fails. *)
Fixpoint marshalElements (oids : list ObjectIdentifier) : result (list byte) :=
  match oids with
  | [] => Ok []
  | oid :: rest =>
      match Marshal_ObjectIdentifier oid with
      | Err e => Err e
      | Ok d =>
          match marshalElements rest with
          | Err e => Err e
          | Ok ds => Ok (d ++ ds)
          end
      end
  end.

Definition Marshal_ObjectIdentifiers (oids : list ObjectIdentifier) : result (list byte) :=
  match marshalElements oids with
  | Ok body => Ok (tagAndLength TagSequenceConstructed (Z.of_nat (length body)) ++ body)
  | Err e => Err e
  end.

End asn1.

(** ** crypto/x509/pkix *)

Module pkix.

Record Extension := {
  Id : asn1.ObjectIdentifier;
  Critical : bool;
  Value : list byte
}.

(** [AttributeTypeAndValue]; the values this package stores are strings. *)
Record AttributeTypeAndValue := {
  atv_Type : asn1.ObjectIdentifier;
  atv_Value : string
}.

Definition RelativeDistinguishedNameSET := list AttributeTypeAndValue.
Definition RDNSequence := list RelativeDistinguishedNameSET.

Record Name := {
  Country : list string;
  Organization : list string;
  OrganizationalUnit : list string;
  Locality : list string;
  Province : list string;
  StreetAddress : list string;
  PostalCode : list string;
  SerialNumber : string;
  CommonName : string;
  ExtraNames : list AttributeTypeAndValue
}.

(** The zero value of [Name], which a composite literal starts from. *)
Definition zero_Name : Name :=
  {| Country := []; Organization := []; OrganizationalUnit := [];
     Locality := []; Province := []; StreetAddress := []; PostalCode := [];
     SerialNumber := ""; CommonName := ""; ExtraNames := [] |}.

Definition oidCountry : asn1.ObjectIdentifier := [2; 5; 4; 6].
Definition oidOrganization : asn1.ObjectIdentifier := [2; 5; 4; 10].
Definition oidOrganizationalUnit : asn1.ObjectIdentifier := [2; 5; 4; 11].
Definition oidCommonName : asn1.ObjectIdentifier := [2; 5; 4; 3].
Definition oidSerialNumber : asn1.ObjectIdentifier := [2; 5; 4; 5].
Definition oidLocality : asn1.ObjectIdentifier := [2; 5; 4; 7].
Definition oidProvince : asn1.ObjectIdentifier := [2; 5; 4; 8].
Definition oidStreetAddress : asn1.ObjectIdentifier := [2; 5; 4; 9].
Definition oidPostalCode : asn1.ObjectIdentifier := [2; 5; 4; 17].

Definition oidInAttributeTypeAndValue
    (oid : asn1.ObjectIdentifier) (atv : list AttributeTypeAndValue) : bool :=
  existsb (fun a => asn1.Equal (atv_Type a) oid) atv.

(** [Name.appendRDNs]: one multi-valued RDN for a standard field, unless
    the field is empty or [ExtraNames] overrides its type. *)
Definition appendRDNs (n : Name) (acc : RDNSequence) (values : list string)
    (oid : asn1.ObjectIdentifier) : RDNSequence :=
  if (Nat.eqb (length values) 0) || oidInAttributeTypeAndValue oid (ExtraNames n)
  then acc
  else acc ++ [map (fun v => {| atv_Type := oid; atv_Value := v |}) values].

(** [Name.ToRDNSequence]: the standard fields in their fixed order, then
    every element of [ExtraNames] as an RDN of its own, in slice order. *)
Definition ToRDNSequence (n : Name) : RDNSequence :=
  let ret := [] in
  let ret := appendRDNs n ret (Country n) oidCountry in
  let ret := appendRDNs n ret (Province n) oidProvince in
  let ret := appendRDNs n ret (Locality n) oidLocality in
  let ret := appendRDNs n ret (StreetAddress n) oidStreetAddress in
  let ret := appendRDNs n ret (PostalCode n) oidPostalCode in
  let ret := appendRDNs n ret (Organization n) oidOrganization in
  let ret := appendRDNs n ret (OrganizationalUnit n) oidOrganizationalUnit in
  let ret :=
    if (0 <? String.length (CommonName n))%nat
    then appendRDNs n ret [CommonName n] oidCommonName else ret in
  let ret :=
    if (0 <? String.length (SerialNumber n))%nat
    then appendRDNs n ret [SerialNumber n] oidSerialNumber else ret in
  fold_left (fun ret atv => ret ++ [[atv]]) (ExtraNames n) ret.

End pkix.

(** ** crypto, crypto/rsa *)

Module rsa.

Record PublicKey := { N : Z; E : Z }.

Record PrivateKey := {
  Public_Key : PublicKey;
  D : Z;
  Primes : list Z
}.

End rsa.

Module crypto.

(** [crypto.PublicKey] is [any]: the dynamic types a signer hands out. *)
Inductive PublicKey :=
| RSAPublicKey (k : rsa.PublicKey)             (* *rsa.PublicKey *)
| ECDSAPublicKey (curve : string) (x y : Z)    (* *ecdsa.PublicKey *)
| Ed25519PublicKey (k : list byte)             (* ed25519.PublicKey *)
| OtherPublicKey (goType : string).            (* any other type, by its name *)

(** What [fmt]'s [%T] prints for the value. *)
Definition typeName (k : PublicKey) : string :=
  match k with
  | RSAPublicKey _ => "*rsa.PublicKey"
  | ECDSAPublicKey _ _ _ => "*ecdsa.PublicKey"
  | Ed25519PublicKey _ => "ed25519.PublicKey"
  | OtherPublicKey goType => goType
  end.

(** [crypto.Signer]: an RSA private key, or any other implementation,
    given by what its [Public] method returns. *)
Inductive Signer :=
| RSASigner (k : rsa.PrivateKey)
| OtherSigner (pub : PublicKey).

Definition Public (s : Signer) : PublicKey :=
  match s with
  | RSASigner k => RSAPublicKey (rsa.Public_Key k)
  | OtherSigner pub => pub
  end.

End crypto.

(** ** crypto/sha1 *)

Module sha1.

Definition Size : nat := 20.

(** The array type [[Size]byte] that [sha1.Sum] returns. *)
Record Digest := {
  digest : list byte;
  digest_Size : length digest = Size
}.

End sha1.

(** ** crypto/x509 *)

Module x509.

(** [x509.KeyUsage] is an [int]; the constants are [1 << iota]. *)
Definition KeyUsage := Z.
Definition KeyUsageDigitalSignature : KeyUsage := 1.
Definition KeyUsageContentCommitment : KeyUsage := 2.
Definition KeyUsageKeyEncipherment : KeyUsage := 4.
Definition KeyUsageDataEncipherment : KeyUsage := 8.
Definition KeyUsageKeyAgreement : KeyUsage := 16.
Definition KeyUsageCertSign : KeyUsage := 32.
Definition KeyUsageCRLSign : KeyUsage := 64.
Definition KeyUsageEncipherOnly : KeyUsage := 128.
Definition KeyUsageDecipherOnly : KeyUsage := 256.

Inductive SignatureAlgorithm :=
| UnknownSignatureAlgorithm
| SHA1WithRSA
| SHA256WithRSA
| SHA384WithRSA
| SHA512WithRSA
| ECDSAWithSHA256.

Inductive PublicKeyAlgorithm :=
| UnknownPublicKeyAlgorithm
| RSA
| DSA
| ECDSA
| Ed25519.

(** The fields of [x509.CertificateRequest] this package sets. *)
Record CertificateRequest := {
  Version : Z;
  RawSubject : list byte;
  Signature_Algorithm : SignatureAlgorithm;
  PublicKey_Algorithm : PublicKeyAlgorithm;
  ExtraExtensions : list pkix.Extension;
  DNSNames : list string
}.

End x509.

(** ** Package qcstatements (github.com/creditkudos/eidas/qcstatements)

    The package is imported by [csr.go]; its own source is not part of the
    files verified here, so the identifiers [csr.go] uses are an interface. *)

Module qcstatements.

Record CompetentAuthority := { Name : string; ID : string }.

Class Package := {
  (** [qcstatements.Role] *)
  Role : Type;
  (** The certificate-type object identifiers. *)
  QWACType : asn1.ObjectIdentifier;
  QSEALType : asn1.ObjectIdentifier;
  (** Lookup of the regulator of a country. *)
  CompetentAuthorityForCountryCode : string -> result CompetentAuthority;
  (** Encoding of the qcStatements payload. *)
  Serialize : list Role -> CompetentAuthority -> asn1.ObjectIdentifier -> result (list byte)
}.

End qcstatements.

(** ** The primitives of the Go standard library that [csr.go] relies on *)

Class Platform := {
  (** The state of [rand.Reader]. *)
  Entropy : Type;
  (** [sha1.Sum] *)
  sha1_Sum : list byte -> sha1.Digest;
  (** [x509.MarshalPKCS1PublicKey] *)
  x509_MarshalPKCS1PublicKey : rsa.PublicKey -> list byte;
  (** [asn1.Marshal] of a [pkix.RDNSequence] *)
  asn1_Marshal_RDNSequence : pkix.RDNSequence -> result (list byte);
  (** [rsa.GenerateKey(rand.Reader, bits)] *)
  rsa_GenerateKey : Entropy -> Z -> result rsa.PrivateKey * Entropy;
  (** [x509.CreateCertificateRequest(rand.Reader, template, priv)] *)
  x509_CreateCertificateRequest :
    Entropy -> x509.CertificateRequest -> crypto.Signer -> result (list byte) * Entropy
}.

(** ** Package eidas: csr.go *)

Module eidas.
Section csr.

Context {QC : qcstatements.Package} {P : Platform}.

Import pkix x509.
Local Open Scope string_scope.

(** A [CertificateOption] is a function that mutates the request it is
    handed a pointer to; the request is a fresh local value, so the
    mutation is a function on it. *)
Definition CertificateOption := CertificateRequest -> CertificateRequest.

(** [WithDNSName] adds the given domain as a Subject Alternate Name. *)
Definition WithDNSName (domain : string) : CertificateOption :=
  fun req =>
    {| Version := Version req;
       RawSubject := RawSubject req;
       Signature_Algorithm := Signature_Algorithm req;
       PublicKey_Algorithm := PublicKey_Algorithm req;
       ExtraExtensions := ExtraExtensions req;
       DNSNames := (DNSNames req ++ [domain])%list |}.

Definition keyUsageForType (t : asn1.ObjectIdentifier)
    : nilable (list KeyUsage) * option error :=
  if asn1.Equal t qcstatements.QWACType then
    (Some [KeyUsageDigitalSignature], None)
  else if asn1.Equal t qcstatements.QSEALType then
    (Some [KeyUsageDigitalSignature;
           KeyUsageContentCommitment (* Also known as NonRepudiation. *)],
     None)
  else (None, Some ("unknown QC type: " ++ asn1.String t)).

(** Lines 115-124 of [keyUsageExtension]: the 16-bit word [x] with one
    bit per usage, its two bytes in little-endian order, and the bit
    string built from them. *)
Definition keyUsageBits (usages : list KeyUsage) : Z :=
  fold_left (fun x usage => Z.lor x (uint16_shl 1 (uint_sub 8 (uint usage))))
            usages 0%Z.

Definition keyUsageBitString (usages : list KeyUsage) : asn1.BitString :=
  let x := keyUsageBits usages in
  let b := PutUint16_le x in
  {| asn1.Bytes := b;
     asn1.BitLength := KeyUsageDecipherOnly |}.

Definition keyUsageExtension (usages : list KeyUsage) : Extension :=
  let bits := keyUsageBitString usages in
  let d := asn1.Marshal_BitString bits in
  {| Id := [2; 5; 29; 15]%Z;
     Critical := true;
     Value := d |}.

Definition tLSWWWServerAuthUsage : asn1.ObjectIdentifier := [1; 3; 6; 1; 5; 5; 7; 3; 1]%Z.
Definition tLSWWWClientAuthUsage : asn1.ObjectIdentifier := [1; 3; 6; 1; 5; 5; 7; 3; 2]%Z.

Definition extendedKeyUsageForType (t : asn1.ObjectIdentifier)
    : nilable (list asn1.ObjectIdentifier) * option error :=
  if asn1.Equal t qcstatements.QWACType then
    (Some [tLSWWWServerAuthUsage; tLSWWWClientAuthUsage], None)
  else if asn1.Equal t qcstatements.QSEALType then
    (Some [], None)
  else (None, Some ("unknown QC type: " ++ asn1.String t)).

(** The marshalling error is dropped ([d, _ := asn1.Marshal(usages)]), which
    leaves [d] nil. *)
Definition extendedKeyUsageExtension (usages : list asn1.ObjectIdentifier) : Extension :=
  let d := match asn1.Marshal_ObjectIdentifiers usages with
           | Ok d => d
           | Err _ => []
           end in
  {| Id := [2; 5; 29; 37]%Z;
     Critical := false;
     Value := d |}.

(** Marshalling a byte slice cannot fail, so the [log.Fatalf] branch is
    never taken. *)
Definition subjectKeyIdentifier (key : rsa.PublicKey) : Extension :=
  let b := sha1_Sum (x509_MarshalPKCS1PublicKey key) in
  let d := asn1.Marshal_bytes (sha1.digest b) in
  {| Id := [2; 5; 29; 14]%Z;
     Critical := false;
     Value := d |}.

(** [QCStatementsExt] represents the qcstatements x509 extension id. *)
Definition QCStatementsExt : asn1.ObjectIdentifier := [1; 3; 6; 1; 5; 5; 7; 1; 3]%Z.

Definition qcStatementsExtension (data : list byte) : Extension :=
  {| Id := QCStatementsExt;
     Critical := false;
     Value := data |}.

Definition oidCountryCode : asn1.ObjectIdentifier := [2; 5; 4; 6]%Z.
Definition oidOrganizationName : asn1.ObjectIdentifier := [2; 5; 4; 10]%Z.
Definition oidOrganizationID : asn1.ObjectIdentifier := [2; 5; 4; 97]%Z.
Definition oidCommonName : asn1.ObjectIdentifier := [2; 5; 4; 3]%Z.

(** The [pkix.Name] literal of [buildSubject]. *)
Definition subjectName (countryCode orgName commonName orgID : string) : Name :=
  {| Country := zero_Name.(Country);
     Organization := zero_Name.(Organization);
     OrganizationalUnit := zero_Name.(OrganizationalUnit);
     Locality := zero_Name.(Locality);
     Province := zero_Name.(Province);
     StreetAddress := zero_Name.(StreetAddress);
     PostalCode := zero_Name.(PostalCode);
     SerialNumber := zero_Name.(SerialNumber);
     CommonName := zero_Name.(CommonName);
     ExtraNames :=
       [ {| atv_Type := oidCountryCode; atv_Value := countryCode |};
         {| atv_Type := oidOrganizationName; atv_Value := orgName |};
         {| atv_Type := oidOrganizationID; atv_Value := orgID |};
         {| atv_Type := oidCommonName; atv_Value := commonName |} ] |}.

(** Explicitly build subject from attributes to keep ordering. *)
Definition buildSubject (countryCode orgName commonName orgID : string)
    : nilable (list byte) * option error :=
  let s := subjectName countryCode orgName commonName orgID in
  returned (asn1_Marshal_RDNSequence (ToRDNSequence s)).

(** Lines 33-73 of [GenerateCSRWithKey]: the key-type check, the two
    calls into [qcstatements], the two table lookups, the extension list,
    the subject, and the request literal; an early [return nil, err] is
    [Err]. *)
Definition assembleRequest
    (countryCode orgName orgID commonName : string)
    (roles : list qcstatements.Role) (qcType : asn1.ObjectIdentifier)
    (priv : crypto.Signer) : result CertificateRequest :=
  match crypto.Public priv with
  | crypto.RSAPublicKey rsaPublic =>
      ca <- wrapErr "eidas: " (qcstatements.CompetentAuthorityForCountryCode countryCode) ;;
      qc <- wrapErr "eidas: " (qcstatements.Serialize roles ca qcType) ;;
      keyUsage <- checked (keyUsageForType qcType) ;;
      extendedKeyUsage <- checked (extendedKeyUsageForType qcType) ;;
      let extensions := [keyUsageExtension (elems keyUsage)] in
      let extensions :=
        if negb (len extendedKeyUsage =? 0)%Z
        then (extensions ++ [extendedKeyUsageExtension (elems extendedKeyUsage)])%list
        else extensions in
      let extensions :=
        (extensions ++ [subjectKeyIdentifier rsaPublic; qcStatementsExtension qc])%list in
      subject <- wrapErr "failed to build CSR subject: "
                   (checked (buildSubject countryCode orgName commonName orgID)) ;;
      Ok {| Version := 0;
            RawSubject := elems subject;
            Signature_Algorithm := SHA256WithRSA;
            PublicKey_Algorithm := RSA;
            ExtraExtensions := extensions;
            DNSNames := [] |}
  | other =>
      Err ("only RSA keys are currently supported but got: " ++ crypto.typeName other)
  end.

(** [for _, opt := range opts { opt(req) }] *)
Definition applyOptions (opts : list CertificateOption) (req : CertificateRequest)
    : CertificateRequest :=
  fold_left (fun req opt => opt req) opts req.

(** [GenerateCSRWithKey] builds a certificate signing request for an
    organization based on an existing private key. *)
Definition GenerateCSRWithKey
    (countryCode orgName orgID commonName : string)
    (roles : list qcstatements.Role) (qcType : asn1.ObjectIdentifier)
    (priv : crypto.Signer) (opts : list CertificateOption) (rand : Entropy)
    : (nilable (list byte) * option error) * Entropy :=
  match assembleRequest countryCode orgName orgID commonName roles qcType priv with
  | Err err => ((None, Some err), rand)
  | Ok req =>
    let req := applyOptions opts req in
    match x509_CreateCertificateRequest rand req priv with
    | (Err err, rand) => ((None, Some ("failed to generate csr: " ++ err)), rand)
    | (Ok csr, rand) => ((Some csr, None), rand)
    end
  end.

(** [GenerateCSR] generates an RSA key and builds a certificate signing
    request for an organization. *)
Definition GenerateCSR
    (countryCode orgName orgID commonName : string)
    (roles : list qcstatements.Role) (qcType : asn1.ObjectIdentifier)
    (opts : list CertificateOption) (rand : Entropy)
    : (nilable (list byte) * nilable rsa.PrivateKey * option error) * Entropy :=
  match rsa_GenerateKey rand 2048 with
  | (Err err, rand) =>
      ((None, None, Some ("failed to generate key pair: " ++ err)), rand)
  | (Ok key, rand) =>
      let '((csr, err), rand) :=
        GenerateCSRWithKey countryCode orgName orgID commonName roles qcType
                           (crypto.RSASigner key) opts rand in
      match err with
      | Some err => ((None, None, Some err), rand)
      | None => ((csr, Some key, None), rand)
      end
  end.

End csr.
End eidas.

(** ** Package eidas: the assertion helper of csr_test.go *)

Module eidas_test.
Section helper.

Import pkix.
Local Open Scope string_scope.

(** A value of type [interface{}], by its dynamic type: the two types the
    helper asserts, or any other (nil included), given by its type name. *)
Inductive any :=
| Extensions (exts : list Extension)              (* []pkix.Extension *)
| ObjectIdentifier (oid : asn1.ObjectIdentifier)  (* asn1.ObjectIdentifier *)
| Other (goType : string).

(** [fmt]'s rendering of a slice of such values under the verb v. *)
Variable Sprint : list any -> string.

(** [shouldContainID]: the empty string when some extension of [actual]
    has the identifier [expected[0]], a message otherwise.  [None] is the
    run-time panic of indexing an empty [expected]. *)
Definition shouldContainID (actual : any) (expected : list any) : option string :=
  match actual with
  | Extensions exts =>
      match expected with
      | [] => None
      | ObjectIdentifier ex :: _ =>
          if existsb (fun ext => asn1.Equal (Id ext) ex) exts
          then Some ""
          else Some ("Expected to find: " ++ Sprint expected)
      | _ :: _ => Some "Expected asn1.ObjectIdentifier"
      end
  | _ => Some "Expected []x509.Extension"
  end.

End helper.
End eidas_test.

(** ** Closed forms the properties are stated with *)

Section ClosedForms.

Context {P : Platform}.

Import pkix x509 eidas.

(** The four attributes of the subject, one per RDN, in the order of the
    [ExtraNames] literal. *)
Definition subjectRDNs (countryCode orgName orgID commonName : string) : RDNSequence :=
  [ [ {| atv_Type := [2; 5; 4; 6]; atv_Value := countryCode |} ];
    [ {| atv_Type := [2; 5; 4; 10]; atv_Value := orgName |} ];
    [ {| atv_Type := [2; 5; 4; 97]; atv_Value := orgID |} ];
    [ {| atv_Type := [2; 5; 4; 3]; atv_Value := commonName |} ] ].

(** The extension list of lines 55-61, as a function of what the earlier
    steps produced. *)
Definition extensionsOf (keyUsage : list KeyUsage)
    (extendedKeyUsage : list asn1.ObjectIdentifier)
    (key : rsa.PublicKey) (qc : list byte) : list Extension :=
  ([keyUsageExtension keyUsage]
     ++ match extendedKeyUsage with
        | [] => []
        | _ :: _ => [extendedKeyUsageExtension extendedKeyUsage]
        end
     ++ [subjectKeyIdentifier key; qcStatementsExtension qc])%list.

(** The request literal of lines 67-73, as a function of what the earlier
    steps produced. *)
Definition requestOf (subject : list byte) (extensions : list Extension)
    : CertificateRequest :=
  {| Version := 0;
     RawSubject := subject;
     Signature_Algorithm := SHA256WithRSA;
     PublicKey_Algorithm := RSA;
     ExtraExtensions := extensions;
     DNSNames := [] |}.

(** A request with its DNS names replaced. *)
Definition withDNSNames (req : CertificateRequest) (names : list string)
    : CertificateRequest :=
  {| Version := Version req;
     RawSubject := RawSubject req;
     Signature_Algorithm := Signature_Algorithm req;
     PublicKey_Algorithm := PublicKey_Algorithm req;
     ExtraExtensions := ExtraExtensions req;
     DNSNames := names |}.

Context {QC : qcstatements.Package}.

(** The request a build assembles when every step before signing passes. *)
Definition assembled (subject : list byte) (qcType : asn1.ObjectIdentifier)
    (key : rsa.PublicKey) (qc : list byte) : CertificateRequest :=
  requestOf subject
    (extensionsOf (elems (fst (keyUsageForType qcType)))
                  (elems (fst (extendedKeyUsageForType qcType))) key qc).

End ClosedForms.

(** ** The key usage bit string as the specification words it

    The specification asks for a bit string with big-endian bit
    significance, bit 0 being the most significant bit of the first byte,
    whose length follows the standard's rule for named bit lists: trailing
    zero bits are not part of the string.  [namedBitString] is that
    encoding, written from those words, for comparison with
    [eidas.keyUsageBitString]. *)

Module KeyUsageSpec.

Import x509.

(** The standard's number of a usage flag; the [KeyUsage] constant of flag
    [n] is [1 << n]. *)
Definition bitNumber (usage : KeyUsage) : Z := Z.log2 usage.

(** Bit [n] of a bit string is the bit of weight [0x80 >> (n mod 8)] of
    byte [n / 8]. *)
Definition bitMask (n : Z) : Z := Z.shiftr 0x80 (n mod 8).

(** One more than the highest flag number present; 0 for no flag. *)
Definition namedBitLength (usages : list KeyUsage) : Z :=
  fold_right (fun usage n => Z.max (bitNumber usage + 1) n) 0 usages.

Definition namedByte (usages : list KeyUsage) (k : Z) : byte :=
  fold_right
    (fun usage b => if bitNumber usage / 8 =? k then Z.lor (bitMask (bitNumber usage)) b else b)
    0 usages.

Definition namedBitString (usages : list KeyUsage) : asn1.BitString :=
  let n := namedBitLength usages in
  {| asn1.Bytes := map (fun k => namedByte usages (Z.of_nat k)) (seq 0 (Z.to_nat ((n + 7) / 8)));
     asn1.BitLength := n |}.

End KeyUsageSpec.

(** ** A small instance of the two interfaces

    It lets the model run on concrete inputs.  The certificate-type
    identifiers are ETSI's id-etsi-qct-web and id-etsi-qct-eseal; the
    regulator table has the one entry the package's tests use.  The
    encoders and the signer are simple deterministic functions of their
    inputs and make no claim to be the real ones: every theorem below
    holds for any instance. *)

Module Fixture.

Import qcstatements.
Local Open Scope string_scope.

Definition bytes_of_string (s : string) : list byte :=
  map (fun c => Z.of_nat (nat_of_ascii c)) (list_ascii_of_string s).

Definition RoleAccountInformation : string := "PSP_AI".

#[export] Instance QC : qcstatements.Package := {|
  Role := string;
  QWACType := [0; 4; 0; 1862; 1; 6; 3]%Z;
  QSEALType := [0; 4; 0; 1862; 1; 6; 2]%Z;
  CompetentAuthorityForCountryCode := fun code =>
    if String.eqb code "GB"
    then Ok {| Name := "Financial Conduct Authority"; ID := "GB-FCA" |}
    else Err ("unknown country code: " ++ code);
  Serialize := fun roles ca t =>
    match asn1.Marshal_ObjectIdentifier t with
    | Err e => Err e
    | Ok d =>
        Ok (d ++ asn1.Marshal_bytes (bytes_of_string (Name ca))
              ++ asn1.Marshal_bytes (bytes_of_string (ID ca))
              ++ concat (map (fun r => asn1.Marshal_bytes (bytes_of_string r)) roles))%list
    end
|}.

(** A 20-byte value derived from the message: its first 20 bytes, padded
    with zeros. *)
Definition truncate20 (m : list byte) : list byte := firstn 20 (m ++ repeat 0%Z 20).

Lemma truncate20_Size (m : list byte) : length (truncate20 m) = sha1.Size.
Proof.
  unfold truncate20, sha1.Size.
  rewrite length_firstn, length_app, repeat_length. lia.
Qed.

Definition textbookKey : rsa.PrivateKey :=
  {| rsa.Public_Key := {| rsa.N := 3233; rsa.E := 17 |};
     rsa.D := 2753;
     rsa.Primes := [61; 53]%Z |}.

#[export] Instance P : Platform := {|
  Entropy := nat;
  sha1_Sum := fun m => {| sha1.digest := truncate20 m; sha1.digest_Size := truncate20_Size m |};
  x509_MarshalPKCS1PublicKey := fun k => [rsa.N k mod 256; rsa.E k mod 256]%Z;
  asn1_Marshal_RDNSequence := fun rdns =>
    Ok (concat (map (fun a => asn1.Marshal_bytes (bytes_of_string (pkix.atv_Value a)))
                    (concat rdns)));
  rsa_GenerateKey := fun rand bits =>
    match rand with
    | O => (Err "no entropy left", O)
    | S rand' => (Ok textbookKey, rand')
    end;
  x509_CreateCertificateRequest := fun rand req priv =>
    match rand with
    | O => (Err "no entropy left", O)
    | S rand' =>
        (Ok (x509.RawSubject req ++ concat (map pkix.Value (x509.ExtraExtensions req)))%list,
         rand')
    end
|}.

End Fixture.


(** * Properties *)

Import pkix x509 eidas.
Import qcstatements.

(** ** Machine arithmetic and DER lengths *)

(** [uint16_shl] is multiplication by a power of two in the 16-bit word,
    for every shift count. *)
Lemma uint16_shl_spec (x s : Z) :
  0 <= s -> uint16_shl x s = (x * 2 ^ s) mod 2 ^ 16.
Proof.
  intros Hs. unfold uint16_shl.
  destruct (s <? 16) eqn:Hlt.
  - now rewrite Z.shiftl_mul_pow2.
  - apply Z.ltb_ge in Hlt.
    replace s with ((s - 16) + 16) by lia.
    rewrite Z.pow_add_r, Z.mul_assoc by lia.
    now rewrite Z.mod_mul.
Qed.

Lemma uint16_shl_range (x s : Z) : 0 <= uint16_shl x s < 2 ^ 16.
Proof.
  unfold uint16_shl. destruct (s <? 16); [|lia].
  apply Z.mod_pos_bound. lia.
Qed.

Lemma uint_sub_range (a b : Z) : 0 <= uint_sub a b < 2 ^ 64.
Proof. apply Z.mod_pos_bound. lia. Qed.

(** [|=] keeps a 16-bit word a 16-bit word. *)
Lemma lor_uint16 (a b : Z) :
  0 <= a < 2 ^ 16 -> 0 <= b < 2 ^ 16 -> 0 <= Z.lor a b < 2 ^ 16.
Proof.
  intros Ha Hb.
  assert (Hnonneg : 0 <= Z.lor a b) by (apply Z.lor_nonneg; lia).
  split; [assumption|].
  destruct (Z.eq_dec (Z.lor a b) 0) as [-> | Hnz]; [lia|].
  apply Z.log2_lt_pow2; [lia|].
  rewrite Z.log2_lor by lia.
  apply Z.max_lub_lt.
  - destruct (Z.eq_dec a 0) as [-> | Ha0]; [simpl; lia|].
    apply Z.log2_lt_pow2; lia.
  - destruct (Z.eq_dec b 0) as [-> | Hb0]; [simpl; lia|].
    apply Z.log2_lt_pow2; lia.
Qed.

(** The two bytes of [PutUint16_le] are bytes, and they are the word. *)
Lemma PutUint16_le_bytes (v : Z) :
  Forall (fun b => 0 <= b < 256) (PutUint16_le v).
Proof.
  unfold PutUint16_le.
  repeat constructor; apply Z.mod_pos_bound; lia.
Qed.

Lemma PutUint16_le_value (v : Z) :
  0 <= v < 2 ^ 16 ->
  match PutUint16_le v with
  | [b0; b1] => b0 + 256 * b1 = v
  | _ => False
  end.
Proof.
  intros Hv. unfold PutUint16_le.
  rewrite Z.shiftr_div_pow2 by lia.
  change (2 ^ 8) with 256.
  rewrite (Z.mod_small (v / 256)).
  - pose proof (Z.div_mod v 256). lia.
  - split; [apply Z.div_pos; lia|].
    apply Z.div_lt_upper_bound; lia.
Qed.

(** Below 128 the length has the short form. *)
Lemma tagAndLength_short (tag n : Z) :
  0 <= n < 128 -> asn1.tagAndLength tag n = [tag; n].
Proof.
  intros Hn. unfold asn1.tagAndLength.
  destruct (128 <=? n) eqn:Hge; [apply Z.leb_le in Hge; lia|].
  now rewrite Z.mod_small by lia.
Qed.

Lemma Marshal_bytes_short (b : list byte) :
  (length b < 128)%nat ->
  asn1.Marshal_bytes b = 0x04 :: Z.of_nat (length b) :: b.
Proof.
  intros Hlen. unfold asn1.Marshal_bytes.
  rewrite tagAndLength_short by lia. reflexivity.
Qed.

(** ** Object identifiers *)

Lemma Equal_spec (oi other : asn1.ObjectIdentifier) :
  asn1.Equal oi other = true <-> oi = other.
Proof.
  unfold asn1.Equal. split.
  - destruct (Nat.eqb (length oi) (length other)) eqn:Hlen; simpl; [|discriminate].
    apply Nat.eqb_eq in Hlen. revert other Hlen.
    induction oi as [|x xs IH]; intros [|y ys] Hlen H; simpl in *;
      try discriminate; auto.
    apply andb_true_iff in H as [Hxy Hrest]. apply Z.eqb_eq in Hxy.
    f_equal; auto.
  - intros <-. rewrite Nat.eqb_refl. simpl.
    induction oi as [|x xs IH]; simpl; auto.
    rewrite Z.eqb_refl; auto.
Qed.

Lemma Equal_refl (oi : asn1.ObjectIdentifier) : asn1.Equal oi oi = true.
Proof. now apply Equal_spec. Qed.

Lemma Equal_neq (oi other : asn1.ObjectIdentifier) :
  oi <> other -> asn1.Equal oi other = false.
Proof.
  intros Hne. destruct (asn1.Equal oi other) eqn:E; auto.
  apply Equal_spec in E. contradiction.
Qed.

Lemma Equal_false (oi other : asn1.ObjectIdentifier) :
  asn1.Equal oi other = false <-> oi <> other.
Proof.
  split; [|apply Equal_neq].
  intros E <-. rewrite Equal_refl in E. discriminate.
Qed.

(** Replace every test [asn1.Equal a b] of the goal by the equation or the
    disequation it decides. *)
Ltac case_Equal :=
  repeat match goal with
  | |- context [asn1.Equal ?a ?b] =>
      let E := fresh "E" in
      destruct (asn1.Equal a b) eqn:E;
      [apply Equal_spec in E | apply Equal_false in E]
  end.

Section Tables.

Context {QC : qcstatements.Package}.

(** The outcome of both lookups is decided by the same two tests. *)
Lemma keyUsageForType_QWAC :
  keyUsageForType QWACType = (Some [KeyUsageDigitalSignature], None).
Proof. unfold keyUsageForType. now rewrite Equal_refl. Qed.

Lemma extendedKeyUsageForType_QWAC :
  extendedKeyUsageForType QWACType =
  (Some [tLSWWWServerAuthUsage; tLSWWWClientAuthUsage], None).
Proof. unfold extendedKeyUsageForType. now rewrite Equal_refl. Qed.

Lemma keyUsageForType_QSEAL :
  QWACType <> QSEALType ->
  keyUsageForType QSEALType =
  (Some [KeyUsageDigitalSignature; KeyUsageContentCommitment], None).
Proof.
  intros Hne. unfold keyUsageForType.
  rewrite Equal_neq by congruence. now rewrite Equal_refl.
Qed.

Lemma extendedKeyUsageForType_QSEAL :
  QWACType <> QSEALType ->
  extendedKeyUsageForType QSEALType = (Some [], None).
Proof.
  intros Hne. unfold extendedKeyUsageForType.
  rewrite Equal_neq by congruence. now rewrite Equal_refl.
Qed.

Lemma keyUsageForType_unknown (t : asn1.ObjectIdentifier) :
  t <> QWACType -> t <> QSEALType ->
  keyUsageForType t = (None, Some ("unknown QC type: " ++ asn1.String t)%string).
Proof.
  intros H1 H2. unfold keyUsageForType. now rewrite !Equal_neq.
Qed.

Lemma extendedKeyUsageForType_unknown (t : asn1.ObjectIdentifier) :
  t <> QWACType -> t <> QSEALType ->
  extendedKeyUsageForType t = (None, Some ("unknown QC type: " ++ asn1.String t)%string).
Proof.
  intros H1 H2. unfold extendedKeyUsageForType. now rewrite !Equal_neq.
Qed.

(** C1.  [keyUsageForType] returns exactly [[DigitalSignature]] for QWAC,
    exactly [[DigitalSignature; ContentCommitment]] (ContentCommitment is
    NonRepudiation) in that order for QSEAL, and for every other type a nil
    list together with the error naming the unknown type.  The two type
    identifiers are those of package [qcstatements], which are distinct. *)
Theorem keyUsageForType_table
    (Hdistinct : QWACType <> QSEALType) (t : asn1.ObjectIdentifier) :
  (t = QWACType ->
     keyUsageForType t = (Some [KeyUsageDigitalSignature], None)) /\
  (t = QSEALType ->
     keyUsageForType t =
     (Some [KeyUsageDigitalSignature; KeyUsageContentCommitment], None)) /\
  (t <> QWACType -> t <> QSEALType ->
     keyUsageForType t = (None, Some ("unknown QC type: " ++ asn1.String t)%string)).
Proof.
  split; [|split].
  - intros ->. apply keyUsageForType_QWAC.
  - intros ->. now apply keyUsageForType_QSEAL.
  - apply keyUsageForType_unknown.
Qed.

(** C7.  [keyUsageForType] fails on a type exactly when
    [extendedKeyUsageForType] fails on it, and each of them succeeds exactly
    on the two types QWAC and QSEAL. *)
Theorem lookups_reject_the_same_types (t : asn1.ObjectIdentifier) :
  (snd (keyUsageForType t) <> None <-> snd (extendedKeyUsageForType t) <> None) /\
  (snd (keyUsageForType t) = None <-> t = QWACType \/ t = QSEALType) /\
  (snd (extendedKeyUsageForType t) = None <-> t = QWACType \/ t = QSEALType).
Proof.
  unfold keyUsageForType, extendedKeyUsageForType.
  case_Equal; simpl; intuition congruence.
Qed.

End Tables.

(** ** The extension builders *)

Section Builders.

Context {P : Platform}.

Lemma keyUsageExtension_Id (usages : list KeyUsage) :
  Id (keyUsageExtension usages) = [2; 5; 29; 15].
Proof. reflexivity. Qed.

Lemma keyUsageExtension_Critical (usages : list KeyUsage) :
  Critical (keyUsageExtension usages) = true.
Proof. reflexivity. Qed.

(** Whatever the flags, the bit string has two bytes and declares the
    length 256, so its encoding has five bytes and announces no unused
    bit. *)
Lemma keyUsageBitString_shape (usages : list KeyUsage) :
  asn1.BitLength (keyUsageBitString usages) = 256 /\
  length (asn1.Bytes (keyUsageBitString usages)) = 2%nat.
Proof. split; reflexivity. Qed.

Lemma keyUsageExtension_Value (usages : list KeyUsage) :
  Value (keyUsageExtension usages) =
  [0x03; 0x03; 0x00; keyUsageBits usages mod 256;
   Z.shiftr (keyUsageBits usages) 8 mod 256].
Proof. reflexivity. Qed.

(** The accumulator [x] never leaves the 16-bit word, so the two bytes
    written are the whole of it. *)
Lemma keyUsageBits_range (usages : list KeyUsage) :
  0 <= keyUsageBits usages < 2 ^ 16.
Proof.
  unfold keyUsageBits.
  assert (Hacc : forall x, 0 <= x < 2 ^ 16 ->
            0 <= fold_left
                   (fun x usage => Z.lor x (uint16_shl 1 (uint_sub 8 (uint usage))))
                   usages x < 2 ^ 16).
  { induction usages as [|usage usages IH]; intros x Hx; simpl; [assumption|].
    apply IH. apply lor_uint16; [assumption|apply uint16_shl_range]. }
  apply Hacc. lia.
Qed.

Lemma keyUsageExtension_Value_bytes (usages : list KeyUsage) :
  Forall (fun b => 0 <= b < 256) (Value (keyUsageExtension usages)).
Proof.
  rewrite keyUsageExtension_Value.
  repeat constructor; try lia; apply Z.mod_pos_bound; lia.
Qed.

(** The first content byte of the two sets the package uses. *)
Lemma keyUsageBits_QWAC : keyUsageBits [KeyUsageDigitalSignature] = 0x80.
Proof. reflexivity. Qed.

Lemma keyUsageBits_QSEAL :
  keyUsageBits [KeyUsageDigitalSignature; KeyUsageContentCommitment] = 0xC0.
Proof. reflexivity. Qed.

(** On both sets the first byte is the one the specification asks for. *)
Lemma keyUsageBitString_first_byte :
  hd_error (asn1.Bytes (keyUsageBitString [KeyUsageDigitalSignature])) =
    hd_error (asn1.Bytes (KeyUsageSpec.namedBitString [KeyUsageDigitalSignature])) /\
  hd_error (asn1.Bytes (keyUsageBitString
                          [KeyUsageDigitalSignature; KeyUsageContentCommitment])) =
    hd_error (asn1.Bytes (KeyUsageSpec.namedBitString
                            [KeyUsageDigitalSignature; KeyUsageContentCommitment])).
Proof. split; reflexivity. Qed.

(** C6.  On the QWAC set [[DigitalSignature]] the extension is critical and
    its first content byte is 0x80, but the bit string declares 256 bits in
    two bytes and is encoded as 03 03 00 80 00, where the named bit list of
    one flag has length 1 and is encoded as 03 02 07 80. *)
Theorem keyUsageExtension_QWAC_bit_length :
  Critical (keyUsageExtension [KeyUsageDigitalSignature]) = true /\
  asn1.Bytes (keyUsageBitString [KeyUsageDigitalSignature]) = [0x80; 0x00] /\
  asn1.BitLength (keyUsageBitString [KeyUsageDigitalSignature]) = 256 /\
  asn1.BitLength (KeyUsageSpec.namedBitString [KeyUsageDigitalSignature]) = 1 /\
  Value (keyUsageExtension [KeyUsageDigitalSignature]) = [0x03; 0x03; 0x00; 0x80; 0x00] /\
  asn1.Marshal_BitString (KeyUsageSpec.namedBitString [KeyUsageDigitalSignature]) =
    [0x03; 0x02; 0x07; 0x80] /\
  keyUsageBitString [KeyUsageDigitalSignature] <>
    KeyUsageSpec.namedBitString [KeyUsageDigitalSignature] /\
  Value (keyUsageExtension [KeyUsageDigitalSignature]) <>
    asn1.Marshal_BitString (KeyUsageSpec.namedBitString [KeyUsageDigitalSignature]).
Proof. repeat split; discriminate. Qed.

(** The same on the QSEAL set: 03 03 00 C0 00 against 03 02 06 C0. *)
Lemma keyUsageExtension_QSEAL_bit_length :
  asn1.BitLength (keyUsageBitString [KeyUsageDigitalSignature; KeyUsageContentCommitment]) = 256 /\
  asn1.BitLength (KeyUsageSpec.namedBitString
                    [KeyUsageDigitalSignature; KeyUsageContentCommitment]) = 2 /\
  Value (keyUsageExtension [KeyUsageDigitalSignature; KeyUsageContentCommitment]) =
    [0x03; 0x03; 0x00; 0xC0; 0x00] /\
  asn1.Marshal_BitString
    (KeyUsageSpec.namedBitString [KeyUsageDigitalSignature; KeyUsageContentCommitment]) =
    [0x03; 0x02; 0x06; 0xC0].
Proof. repeat split. Qed.

(** The shift count is 8 minus the flag's value, not 7 minus its number:
    only the first two flags land on their own bit. *)
Lemma keyUsageBits_single_flags :
  map (fun usage => keyUsageBits [usage])
      [KeyUsageDigitalSignature; KeyUsageContentCommitment; KeyUsageKeyEncipherment;
       KeyUsageDataEncipherment; KeyUsageKeyAgreement; KeyUsageCertSign;
       KeyUsageCRLSign; KeyUsageEncipherOnly; KeyUsageDecipherOnly] =
  [0x80; 0x40; 0x10; 0x01; 0; 0; 0; 0; 0].
Proof. reflexivity. Qed.

Lemma extendedKeyUsageExtension_Id (usages : list asn1.ObjectIdentifier) :
  Id (extendedKeyUsageExtension usages) = [2; 5; 29; 37] /\
  Critical (extendedKeyUsageExtension usages) = false.
Proof. split; reflexivity. Qed.

(** The payload for QWAC: SEQUENCE { serverAuth, clientAuth }. *)
Lemma extendedKeyUsageExtension_QWAC :
  Value (extendedKeyUsageExtension [tLSWWWServerAuthUsage; tLSWWWClientAuthUsage]) =
  [0x30; 0x14; 0x06; 0x08; 0x2B; 0x06; 0x01; 0x05; 0x05; 0x07; 0x03; 0x01;
               0x06; 0x08; 0x2B; 0x06; 0x01; 0x05; 0x05; 0x07; 0x03; 0x02].
Proof. reflexivity. Qed.

(** C8.  [subjectKeyIdentifier] returns the extension 2.5.29.14, not
    critical, whose payload is the OCTET STRING (tag 04, length 20) holding
    the 20-byte SHA-1 digest of the PKCS#1 DER encoding of the key. *)
Theorem subjectKeyIdentifier_spec (key : rsa.PublicKey) :
  subjectKeyIdentifier key =
    {| Id := [2; 5; 29; 14];
       Critical := false;
       Value := 0x04 :: 0x14 :: sha1.digest (sha1_Sum (x509_MarshalPKCS1PublicKey key)) |} /\
  Z.of_nat (length (sha1.digest (sha1_Sum (x509_MarshalPKCS1PublicKey key)))) * 8 = 160.
Proof.
  unfold subjectKeyIdentifier.
  rewrite Marshal_bytes_short; rewrite sha1.digest_Size; [|unfold sha1.Size; lia].
  split; reflexivity.
Qed.

Lemma qcStatementsExtension_Id (data : list byte) :
  Id (qcStatementsExtension data) = [1; 3; 6; 1; 5; 5; 7; 1; 3] /\
  Critical (qcStatementsExtension data) = false /\
  Value (qcStatementsExtension data) = data.
Proof. repeat split. Qed.

End Builders.

(** ** The request assembler *)

Section Assembler.

Context {QC : qcstatements.Package} {P : Platform}.

Local Open Scope string_scope.

(** The loop over [ExtraNames] appends one singleton per element. *)
Lemma fold_left_singletons {A : Type} (l : list A) (acc : list (list A)) :
  fold_left (fun ret a => (ret ++ [[a]])%list) l acc = (acc ++ map (fun a => [a]) l)%list.
Proof.
  revert acc. induction l as [|a l IH]; intros acc; simpl.
  - now rewrite app_nil_r.
  - rewrite IH, <- app_assoc. reflexivity.
Qed.

(** A name that sets no standard field is encoded from [ExtraNames] alone:
    one RDN per attribute, in slice order. *)
Lemma ToRDNSequence_ExtraNames_only (extra : list AttributeTypeAndValue) :
  ToRDNSequence
    {| Country := []; Organization := []; OrganizationalUnit := [];
       Locality := []; Province := []; StreetAddress := []; PostalCode := [];
       SerialNumber := ""; CommonName := ""; ExtraNames := extra |} =
  map (fun atv => [atv]) extra.
Proof.
  unfold ToRDNSequence, appendRDNs. simpl.
  apply (fold_left_singletons extra []).
Qed.

Lemma ToRDNSequence_subjectName (countryCode orgName commonName orgID : string) :
  ToRDNSequence (subjectName countryCode orgName commonName orgID) =
  subjectRDNs countryCode orgName orgID commonName.
Proof. reflexivity. Qed.

Lemma buildSubject_returns (countryCode orgName commonName orgID : string) :
  buildSubject countryCode orgName commonName orgID =
  returned (asn1_Marshal_RDNSequence (subjectRDNs countryCode orgName orgID commonName)).
Proof. reflexivity. Qed.

(** What a successful assembly went through. *)
Lemma assembleRequest_Ok_inv
    (countryCode orgName orgID commonName : string)
    (roles : list Role) (qcType : asn1.ObjectIdentifier)
    (priv : crypto.Signer) (req : CertificateRequest) :
  assembleRequest countryCode orgName orgID commonName roles qcType priv = Ok req ->
  exists key ca qc keyUsage extendedKeyUsage subject,
    crypto.Public priv = crypto.RSAPublicKey key /\
    CompetentAuthorityForCountryCode countryCode = Ok ca /\
    Serialize roles ca qcType = Ok qc /\
    keyUsageForType qcType = (Some keyUsage, None) /\
    extendedKeyUsageForType qcType = (Some extendedKeyUsage, None) /\
    asn1_Marshal_RDNSequence (subjectRDNs countryCode orgName orgID commonName) = Ok subject /\
    req = {| Version := 0;
             RawSubject := subject;
             Signature_Algorithm := SHA256WithRSA;
             PublicKey_Algorithm := RSA;
             ExtraExtensions := extensionsOf keyUsage extendedKeyUsage key qc;
             DNSNames := [] |}.
Proof.
  unfold assembleRequest, bind, wrapErr, checked. intros H.
  destruct (crypto.Public priv) as [key| | |] eqn:Hpub; try discriminate.
  destruct (CompetentAuthorityForCountryCode countryCode) as [ca|] eqn:Hca;
    try discriminate.
  destruct (Serialize roles ca qcType) as [qc|] eqn:Hqc; try discriminate.
  destruct (keyUsageForType qcType) as [ku [e|]] eqn:Hku; try discriminate.
  destruct (extendedKeyUsageForType qcType) as [eku [e|]] eqn:Heku; try discriminate.
  rewrite buildSubject_returns in H.
  destruct (asn1_Marshal_RDNSequence _) as [subject|] eqn:Hsubject;
    simpl in H; try discriminate.
  assert (exists l, ku = Some l) as [keyUsage ->].
  { revert Hku. unfold keyUsageForType.
    case_Equal; intros [= <-]; eauto. }
  assert (exists l, eku = Some l) as [extendedKeyUsage ->].
  { revert Heku. unfold extendedKeyUsageForType.
    case_Equal; intros [= <-]; eauto. }
  exists key, ca, qc, keyUsage, extendedKeyUsage, subject.
  repeat (split; [first [reflexivity | assumption]|]).
  injection H as <-. unfold extensionsOf.
  destruct extendedKeyUsage; reflexivity.
Qed.

(** A build that returns no error assembled a request, ran the options on
    it and had it signed. *)
Lemma GenerateCSRWithKey_success_inv
    (countryCode orgName orgID commonName : string)
    (roles : list Role) (qcType : asn1.ObjectIdentifier)
    (priv : crypto.Signer) (opts : list CertificateOption) (rand : Entropy) :
  snd (fst (GenerateCSRWithKey countryCode orgName orgID commonName roles qcType
                               priv opts rand)) = None ->
  exists req csr rand',
    assembleRequest countryCode orgName orgID commonName roles qcType priv = Ok req /\
    x509_CreateCertificateRequest rand (applyOptions opts req) priv = (Ok csr, rand') /\
    GenerateCSRWithKey countryCode orgName orgID commonName roles qcType priv opts rand =
      ((Some csr, None), rand').
Proof.
  unfold GenerateCSRWithKey.
  destruct (assembleRequest _ _ _ _ _ _ _) as [req|e]; [|discriminate].
  destruct (x509_CreateCertificateRequest _ _ _) as [[csr|e] rand'] eqn:Hsign;
    [|discriminate].
  intros _. now exists req, csr, rand'.
Qed.

(** No bytes come with an error. *)
Lemma GenerateCSRWithKey_error_nil
    (countryCode orgName orgID commonName : string)
    (roles : list Role) (qcType : asn1.ObjectIdentifier)
    (priv : crypto.Signer) (opts : list CertificateOption) (rand : Entropy) :
  snd (fst (GenerateCSRWithKey countryCode orgName orgID commonName roles qcType
                               priv opts rand)) <> None ->
  fst (fst (GenerateCSRWithKey countryCode orgName orgID commonName roles qcType
                               priv opts rand)) = None.
Proof.
  unfold GenerateCSRWithKey.
  destruct (assembleRequest _ _ _ _ _ _ _) as [req|e]; [|reflexivity].
  destruct (x509_CreateCertificateRequest _ _ _) as [[csr|e] rand']; simpl;
    congruence.
Qed.

(** Running two lists of options one after the other is running their
    concatenation. *)
Lemma applyOptions_app (opts1 opts2 : list CertificateOption) (req : CertificateRequest) :
  applyOptions (opts1 ++ opts2) req = applyOptions opts2 (applyOptions opts1 req).
Proof. unfold applyOptions. apply fold_left_app. Qed.

(** The built-in option leaves everything but the DNS names alone, and a
    list of them appends its domains in order. *)
Lemma applyOptions_WithDNSName (domains : list string) (req : CertificateRequest) :
  let req' := applyOptions (map WithDNSName domains) req in
  DNSNames req' = (DNSNames req ++ domains)%list /\
  ExtraExtensions req' = ExtraExtensions req /\
  RawSubject req' = RawSubject req /\
  Version req' = Version req /\
  Signature_Algorithm req' = Signature_Algorithm req /\
  PublicKey_Algorithm req' = PublicKey_Algorithm req.
Proof.
  unfold applyOptions. revert req.
  induction domains as [|d ds IH]; intros req; simpl.
  - rewrite app_nil_r. repeat split.
  - destruct (IH (WithDNSName d req)) as (H1 & H2 & H3 & H4 & H5 & H6).
    rewrite H1, H2, H3, H4, H5, H6. simpl. rewrite <- app_assoc.
    repeat split.
Qed.

End Assembler.

(** ** The assembled request and the two entry points *)

Section Requests.

Context {QC : qcstatements.Package} {P : Platform}.

Local Open Scope string_scope.

(** Options that leave a field alone leave it alone together. *)
Lemma applyOptions_preserves {A : Type} (field : CertificateRequest -> A)
    (opts : list CertificateOption) (req : CertificateRequest) :
  (forall opt r, In opt opts -> field (opt r) = field r) ->
  field (applyOptions opts req) = field req.
Proof.
  unfold applyOptions. revert req.
  induction opts as [|opt opts IH]; intros req Hkeep; simpl; [reflexivity|].
  rewrite IH by (intros; apply Hkeep; now right).
  apply Hkeep. now left.
Qed.

Lemma extensionsOf_no_extendedKeyUsage
    (keyUsage : list KeyUsage) (key : rsa.PublicKey) (qc : list byte) (ext : Extension) :
  In ext (extensionsOf keyUsage [] key qc) -> Id ext <> [2; 5; 29; 37].
Proof.
  unfold extensionsOf. simpl.
  intros [<- | [<- | [<- | []]]]; simpl; discriminate.
Qed.

Lemma extensionsOf_ids
    (keyUsage : list KeyUsage) (extendedKeyUsage : list asn1.ObjectIdentifier)
    (key : rsa.PublicKey) (qc : list byte) :
  map (fun ext => (Id ext, Critical ext))
      (extensionsOf keyUsage extendedKeyUsage key qc) =
  ([([2; 5; 29; 15], true)]
     ++ match extendedKeyUsage with
        | [] => []
        | _ :: _ => [([2; 5; 29; 37], false)]
        end
     ++ [([2; 5; 29; 14], false); ([1; 3; 6; 1; 5; 5; 7; 1; 3], false)])%list.
Proof. destruct extendedKeyUsage; reflexivity. Qed.

(** C2.  [extendedKeyUsageForType] returns exactly the TLS server
    authentication and TLS client authentication identifiers, in that
    order, for QWAC, and the empty (non-nil) list for QSEAL; and every build
    of type QSEAL that returns no error assembled a request none of whose
    extensions has the identifier 2.5.29.37.  The request is the one the
    caller's options then run on before it is signed; options that do not
    touch the extension list hand the same list to the signer. *)
Theorem extendedKeyUsageForType_table_and_QSEAL_omission
    (Hdistinct : QWACType <> QSEALType) :
  (forall t : asn1.ObjectIdentifier,
     (t = QWACType ->
        extendedKeyUsageForType t =
        (Some [[1; 3; 6; 1; 5; 5; 7; 3; 1]; [1; 3; 6; 1; 5; 5; 7; 3; 2]], None)) /\
     (t = QSEALType -> extendedKeyUsageForType t = (Some [], None))) /\
  (forall (countryCode orgName orgID commonName : string) (roles : list Role)
          (priv : crypto.Signer) (opts : list CertificateOption) (rand : Entropy),
     snd (fst (GenerateCSRWithKey countryCode orgName orgID commonName roles QSEALType
                                  priv opts rand)) = None ->
     exists req csr rand',
       assembleRequest countryCode orgName orgID commonName roles QSEALType priv = Ok req /\
       x509_CreateCertificateRequest rand (applyOptions opts req) priv = (Ok csr, rand') /\
       (forall ext, In ext (ExtraExtensions req) -> Id ext <> [2; 5; 29; 37]) /\
       ((forall opt r, In opt opts -> ExtraExtensions (opt r) = ExtraExtensions r) ->
        forall ext, In ext (ExtraExtensions (applyOptions opts req)) ->
                    Id ext <> [2; 5; 29; 37])).
Proof.
  split.
  - intros t. split; intros ->.
    + apply extendedKeyUsageForType_QWAC.
    + now apply extendedKeyUsageForType_QSEAL.
  - intros countryCode orgName orgID commonName roles priv opts rand Hok.
    destruct (GenerateCSRWithKey_success_inv _ _ _ _ _ _ _ _ _ Hok)
      as (req & csr & rand' & Hreq & Hsign & _).
    exists req, csr, rand'. split; [assumption|]. split; [assumption|].
    destruct (assembleRequest_Ok_inv _ _ _ _ _ _ _ _ Hreq)
      as (key & ca & qc & ku & eku & subject & _ & _ & _ & _ & Heku & _ & ->).
    rewrite extendedKeyUsageForType_QSEAL in Heku by assumption.
    injection Heku as <-.
    assert (Hnone : forall ext,
               In ext (extensionsOf ku [] key qc) -> Id ext <> [2; 5; 29; 37])
      by apply extensionsOf_no_extendedKeyUsage.
    split; [exact Hnone|].
    intros Hkeep. rewrite (applyOptions_preserves ExtraExtensions) by assumption.
    exact Hnone.
Qed.

(** C3.  Every build that returns no error assembled a request whose raw
    subject is the encoding of a sequence of exactly four attributes, one
    per RDN: 2.5.4.6 with the country code, 2.5.4.10 with the organization
    name, 2.5.4.97 with the organization id and 2.5.4.3 with the common
    name, in this order.  That sequence is what [ToRDNSequence] makes of the
    name [buildSubject] builds. *)
Theorem subject_has_four_ordered_attributes
    (countryCode orgName orgID commonName : string) (roles : list Role)
    (qcType : asn1.ObjectIdentifier) (priv : crypto.Signer)
    (opts : list CertificateOption) (rand : Entropy) :
  snd (fst (GenerateCSRWithKey countryCode orgName orgID commonName roles qcType
                               priv opts rand)) = None ->
  ToRDNSequence (subjectName countryCode orgName commonName orgID) =
    [ [ {| atv_Type := [2; 5; 4; 6]; atv_Value := countryCode |} ];
      [ {| atv_Type := [2; 5; 4; 10]; atv_Value := orgName |} ];
      [ {| atv_Type := [2; 5; 4; 97]; atv_Value := orgID |} ];
      [ {| atv_Type := [2; 5; 4; 3]; atv_Value := commonName |} ] ] /\
  exists req csr rand',
    assembleRequest countryCode orgName orgID commonName roles qcType priv = Ok req /\
    x509_CreateCertificateRequest rand (applyOptions opts req) priv = (Ok csr, rand') /\
    buildSubject countryCode orgName commonName orgID = (Some (RawSubject req), None) /\
    asn1_Marshal_RDNSequence
      (ToRDNSequence (subjectName countryCode orgName commonName orgID)) =
      Ok (RawSubject req) /\
    ((forall opt r, In opt opts -> RawSubject (opt r) = RawSubject r) ->
     RawSubject (applyOptions opts req) = RawSubject req).
Proof.
  intros Hok. split; [reflexivity|].
  destruct (GenerateCSRWithKey_success_inv _ _ _ _ _ _ _ _ _ Hok)
    as (req & csr & rand' & Hreq & Hsign & _).
  exists req, csr, rand'. split; [assumption|]. split; [assumption|].
  destruct (assembleRequest_Ok_inv _ _ _ _ _ _ _ _ Hreq)
    as (key & ca & qc & ku & eku & subject & _ & _ & _ & _ & _ & Hsubject & ->).
  simpl. rewrite buildSubject_returns, ToRDNSequence_subjectName, Hsubject.
  split; [reflexivity|]. split; [reflexivity|].
  apply (applyOptions_preserves RawSubject).
Qed.

(** C4.  Every build that returns no error assembled a request whose
    extension list is, in this order: the key usage extension (2.5.29.15,
    critical); the extended key usage extension (2.5.29.37, not critical)
    exactly when the list of extended usages of the type is not empty; the
    subject key identifier (2.5.29.14, not critical); the qcStatements
    extension (1.3.6.1.5.5.7.1.3, not critical). *)
Theorem extensions_in_fixed_order
    (countryCode orgName orgID commonName : string) (roles : list Role)
    (qcType : asn1.ObjectIdentifier) (priv : crypto.Signer)
    (opts : list CertificateOption) (rand : Entropy) :
  snd (fst (GenerateCSRWithKey countryCode orgName orgID commonName roles qcType
                               priv opts rand)) = None ->
  exists req csr rand' key ca qc keyUsage extendedKeyUsage,
    assembleRequest countryCode orgName orgID commonName roles qcType priv = Ok req /\
    x509_CreateCertificateRequest rand (applyOptions opts req) priv = (Ok csr, rand') /\
    crypto.Public priv = crypto.RSAPublicKey key /\
    CompetentAuthorityForCountryCode countryCode = Ok ca /\
    Serialize roles ca qcType = Ok qc /\
    keyUsageForType qcType = (Some keyUsage, None) /\
    extendedKeyUsageForType qcType = (Some extendedKeyUsage, None) /\
    ExtraExtensions req =
      ([keyUsageExtension keyUsage]
         ++ match extendedKeyUsage with
            | [] => []
            | _ :: _ => [extendedKeyUsageExtension extendedKeyUsage]
            end
         ++ [subjectKeyIdentifier key; qcStatementsExtension qc])%list /\
    map (fun ext => (Id ext, Critical ext)) (ExtraExtensions req) =
      ([([2; 5; 29; 15], true)]
         ++ match extendedKeyUsage with
            | [] => []
            | _ :: _ => [([2; 5; 29; 37], false)]
            end
         ++ [([2; 5; 29; 14], false); ([1; 3; 6; 1; 5; 5; 7; 1; 3], false)])%list /\
    ((forall opt r, In opt opts -> ExtraExtensions (opt r) = ExtraExtensions r) ->
     ExtraExtensions (applyOptions opts req) = ExtraExtensions req).
Proof.
  intros Hok.
  destruct (GenerateCSRWithKey_success_inv _ _ _ _ _ _ _ _ _ Hok)
    as (req & csr & rand' & Hreq & Hsign & _).
  destruct (assembleRequest_Ok_inv _ _ _ _ _ _ _ _ Hreq)
    as (key & ca & qc & ku & eku & subject & Hpub & Hca & Hqc & Hku & Heku & _ & Hlit).
  exists req, csr, rand', key, ca, qc, ku, eku.
  repeat (split; [assumption|]).
  subst req. cbn [ExtraExtensions].
  split; [reflexivity|]. split; [apply extensionsOf_ids|].
  apply (applyOptions_preserves ExtraExtensions).
Qed.

(** C5.  With a signing key whose public key is not an RSA public key,
    [GenerateCSRWithKey] returns nil bytes and the error that names the
    type found, and reads no entropy.  This holds whatever the other
    arguments and whatever the regulator lookup, the qcStatements encoder
    and the type tables would have answered: the key check comes first. *)
Theorem GenerateCSRWithKey_rejects_non_RSA_key
    (countryCode orgName orgID commonName : string) (roles : list Role)
    (qcType : asn1.ObjectIdentifier) (priv : crypto.Signer)
    (opts : list CertificateOption) (rand : Entropy)
    (Hkey : forall k, crypto.Public priv <> crypto.RSAPublicKey k) :
  GenerateCSRWithKey countryCode orgName orgID commonName roles qcType priv opts rand =
  ((None,
    Some ("only RSA keys are currently supported but got: "
            ++ crypto.typeName (crypto.Public priv))),
   rand).
Proof.
  unfold GenerateCSRWithKey, assembleRequest.
  destruct (crypto.Public priv) as [k| | |] eqn:Hpub; try reflexivity.
  now destruct (Hkey k).
Qed.

(** C9.  [GenerateCSR] asks for a 2048-bit RSA key.  When that fails it
    returns the key generation error; otherwise it calls
    [GenerateCSRWithKey] on the same arguments and options with the new key
    as signer, and returns that call's bytes and error as they are,
    together with the key when there is no error. *)
Theorem GenerateCSR_delegates
    (countryCode orgName orgID commonName : string) (roles : list Role)
    (qcType : asn1.ObjectIdentifier) (opts : list CertificateOption) (rand : Entropy) :
  match rsa_GenerateKey rand 2048 with
  | (Err err, rand1) =>
      GenerateCSR countryCode orgName orgID commonName roles qcType opts rand =
      ((None, None, Some ("failed to generate key pair: " ++ err)), rand1)
  | (Ok key, rand1) =>
      let built :=
        GenerateCSRWithKey countryCode orgName orgID commonName roles qcType
                           (crypto.RSASigner key) opts rand1 in
      let out := GenerateCSR countryCode orgName orgID commonName roles qcType opts rand in
      fst (fst (fst out)) = fst (fst built) /\
      snd (fst out) = snd (fst built) /\
      snd out = snd built /\
      (snd (fst built) = None -> snd (fst (fst out)) = Some key)
  end.
Proof.
  unfold GenerateCSR.
  destruct (rsa_GenerateKey rand 2048) as [[key|err] rand1]; [|reflexivity].
  pose proof (GenerateCSRWithKey_error_nil countryCode orgName orgID commonName
                roles qcType (crypto.RSASigner key) opts rand1) as Hnil.
  destruct (GenerateCSRWithKey _ _ _ _ _ _ _ _ _) as [[csr [err|]] rand2]; simpl in *.
  - rewrite Hnil by discriminate. repeat split. discriminate.
  - repeat split.
Qed.

(** C10.  Whenever [GenerateCSR] returns an error, the bytes and the
    private key it returns are both nil, also when the key had been
    generated and the failure came from [GenerateCSRWithKey]. *)
Theorem GenerateCSR_error_returns_nil
    (countryCode orgName orgID commonName : string) (roles : list Role)
    (qcType : asn1.ObjectIdentifier) (opts : list CertificateOption) (rand : Entropy) :
  snd (fst (GenerateCSR countryCode orgName orgID commonName roles qcType opts rand)) <> None ->
  fst (fst (fst (GenerateCSR countryCode orgName orgID commonName roles qcType opts rand))) = None /\
  snd (fst (fst (GenerateCSR countryCode orgName orgID commonName roles qcType opts rand))) = None.
Proof.
  unfold GenerateCSR.
  destruct (rsa_GenerateKey rand 2048) as [[key|err] rand1]; [|split; reflexivity].
  destruct (GenerateCSRWithKey _ _ _ _ _ _ _ _ _) as [[csr [err|]] rand2]; simpl.
  - split; reflexivity.
  - congruence.
Qed.

End Requests.

(** ** The theorems at concrete inputs

    The inputs are those of the package's tests (country GB, organization
    "Foo Org", organization id "Foo Org ID", common name "Foo Name", the
    account information role), run on the instance [Fixture]. *)

Local Open Scope string_scope.

(** The key usage table at the QSEAL identifier. *)
Lemma keyUsageForType_table_witness :
  @QWACType Fixture.QC <> @QSEALType Fixture.QC /\
  keyUsageForType (QC:=Fixture.QC) [0; 4; 0; 1862; 1; 6; 2] =
    (Some [KeyUsageDigitalSignature; KeyUsageContentCommitment], None).
Proof.
  assert (Hdistinct : @QWACType Fixture.QC <> @QSEALType Fixture.QC) by discriminate.
  split; [exact Hdistinct|].
  exact (proj1 (proj2 (keyUsageForType_table (QC:=Fixture.QC) Hdistinct
                         [0; 4; 0; 1862; 1; 6; 2])) eq_refl).
Defined.

(** A QSEAL build with one DNS name: no extended key usage extension in the
    assembled request, nor in the request handed to the signer. *)
Lemma extendedKeyUsageForType_table_and_QSEAL_omission_witness :
  @QWACType Fixture.QC <> @QSEALType Fixture.QC /\
  snd (fst (GenerateCSRWithKey (QC:=Fixture.QC) (P:=Fixture.P)
              "GB" "Foo Org" "Foo Org ID" "Foo Name" [Fixture.RoleAccountInformation]
              (@QSEALType Fixture.QC) (crypto.RSASigner Fixture.textbookKey)
              [WithDNSName "foo.example.com"] 1%nat)) = None /\
  exists req,
    assembleRequest (QC:=Fixture.QC) (P:=Fixture.P)
      "GB" "Foo Org" "Foo Org ID" "Foo Name" [Fixture.RoleAccountInformation]
      (@QSEALType Fixture.QC) (crypto.RSASigner Fixture.textbookKey) = Ok req /\
    (forall ext, In ext (ExtraExtensions req) -> Id ext <> [2; 5; 29; 37]) /\
    (forall ext, In ext (ExtraExtensions (applyOptions [WithDNSName "foo.example.com"] req)) ->
                 Id ext <> [2; 5; 29; 37]).
Proof.
  assert (Hdistinct : @QWACType Fixture.QC <> @QSEALType Fixture.QC) by discriminate.
  split; [exact Hdistinct|]. split; [reflexivity|].
  destruct (proj2 (extendedKeyUsageForType_table_and_QSEAL_omission
                     (QC:=Fixture.QC) (P:=Fixture.P) Hdistinct)
              "GB" "Foo Org" "Foo Org ID" "Foo Name" [Fixture.RoleAccountInformation]
              (crypto.RSASigner Fixture.textbookKey)
              [WithDNSName "foo.example.com"] 1%nat eq_refl)
    as (req & csr & rand' & Hreq & _ & Hnone & Hsigned).
  exists req. split; [exact Hreq|]. split; [exact Hnone|].
  apply Hsigned. intros opt r [<- | []]. reflexivity.
Defined.

(** The subject of the test request. *)
Lemma subject_has_four_ordered_attributes_witness :
  snd (fst (GenerateCSRWithKey (QC:=Fixture.QC) (P:=Fixture.P)
              "GB" "Foo Org" "Foo Org ID" "Foo Name" [Fixture.RoleAccountInformation]
              (@QWACType Fixture.QC) (crypto.RSASigner Fixture.textbookKey) [] 1%nat)) = None /\
  ToRDNSequence (subjectName "GB" "Foo Org" "Foo Name" "Foo Org ID") =
    [ [ {| atv_Type := [2; 5; 4; 6]; atv_Value := "GB" |} ];
      [ {| atv_Type := [2; 5; 4; 10]; atv_Value := "Foo Org" |} ];
      [ {| atv_Type := [2; 5; 4; 97]; atv_Value := "Foo Org ID" |} ];
      [ {| atv_Type := [2; 5; 4; 3]; atv_Value := "Foo Name" |} ] ].
Proof.
  split; [reflexivity|].
  exact (proj1 (subject_has_four_ordered_attributes (QC:=Fixture.QC) (P:=Fixture.P)
                  "GB" "Foo Org" "Foo Org ID" "Foo Name" [Fixture.RoleAccountInformation]
                  (@QWACType Fixture.QC) (crypto.RSASigner Fixture.textbookKey) [] 1%nat eq_refl)).
Defined.

(** The four extensions of the QWAC test request. *)
Lemma extensions_in_fixed_order_witness :
  snd (fst (GenerateCSRWithKey (QC:=Fixture.QC) (P:=Fixture.P)
              "GB" "Foo Org" "Foo Org ID" "Foo Name" [Fixture.RoleAccountInformation]
              (@QWACType Fixture.QC) (crypto.RSASigner Fixture.textbookKey) [] 1%nat)) = None /\
  exists req,
    assembleRequest (QC:=Fixture.QC) (P:=Fixture.P)
      "GB" "Foo Org" "Foo Org ID" "Foo Name" [Fixture.RoleAccountInformation]
      (@QWACType Fixture.QC) (crypto.RSASigner Fixture.textbookKey) = Ok req /\
    map (fun ext => (Id ext, Critical ext)) (ExtraExtensions req) =
      [ ([2; 5; 29; 15], true); ([2; 5; 29; 37], false);
        ([2; 5; 29; 14], false); ([1; 3; 6; 1; 5; 5; 7; 1; 3], false) ].
Proof.
  split; [reflexivity|].
  destruct (extensions_in_fixed_order (QC:=Fixture.QC) (P:=Fixture.P)
              "GB" "Foo Org" "Foo Org ID" "Foo Name" [Fixture.RoleAccountInformation]
              (@QWACType Fixture.QC) (crypto.RSASigner Fixture.textbookKey) [] 1%nat eq_refl)
    as (req & csr & rand' & key & ca & qc & ku & eku
        & Hreq & _ & _ & _ & _ & _ & Heku & _ & Hids & _).
  exists req. split; [exact Hreq|].
  rewrite Hids. injection Heku as <-. reflexivity.
Defined.

(** The test with an ECDSA key. *)
Lemma GenerateCSRWithKey_rejects_non_RSA_key_witness :
  (forall k, crypto.Public (crypto.OtherSigner (crypto.ECDSAPublicKey "P-256" 1 2))
             <> crypto.RSAPublicKey k) /\
  GenerateCSRWithKey (QC:=Fixture.QC) (P:=Fixture.P)
    "GB" "Foo Org" "Foo Org ID" "Foo Name" [Fixture.RoleAccountInformation]
    (@QWACType Fixture.QC) (crypto.OtherSigner (crypto.ECDSAPublicKey "P-256" 1 2)) [] 1%nat =
  ((None, Some "only RSA keys are currently supported but got: *ecdsa.PublicKey"), 1%nat).
Proof.
  assert (Hkey : forall k,
             crypto.Public (crypto.OtherSigner (crypto.ECDSAPublicKey "P-256" 1 2))
             <> crypto.RSAPublicKey k) by (intros k; discriminate).
  split; [exact Hkey|].
  exact (GenerateCSRWithKey_rejects_non_RSA_key (QC:=Fixture.QC) (P:=Fixture.P)
           "GB" "Foo Org" "Foo Org ID" "Foo Name" [Fixture.RoleAccountInformation]
           (@QWACType Fixture.QC) (crypto.OtherSigner (crypto.ECDSAPublicKey "P-256" 1 2)) [] 1%nat Hkey).
Defined.

(** A country without a regulator: the key is generated, the assembly
    fails, and neither bytes nor key come back. *)
Lemma GenerateCSR_error_returns_nil_witness :
  GenerateCSR (QC:=Fixture.QC) (P:=Fixture.P)
    "ZZ" "Foo Org" "Foo Org ID" "Foo Name" [Fixture.RoleAccountInformation]
    (@QWACType Fixture.QC) [] 2%nat =
    ((None, None, Some "eidas: unknown country code: ZZ"), 1%nat) /\
  fst (rsa_GenerateKey (Platform:=Fixture.P) 2%nat 2048) = Ok Fixture.textbookKey /\
  fst (fst (fst (GenerateCSR (QC:=Fixture.QC) (P:=Fixture.P)
                   "ZZ" "Foo Org" "Foo Org ID" "Foo Name" [Fixture.RoleAccountInformation]
                   (@QWACType Fixture.QC) [] 2%nat))) = None /\
  snd (fst (fst (GenerateCSR (QC:=Fixture.QC) (P:=Fixture.P)
                   "ZZ" "Foo Org" "Foo Org ID" "Foo Name" [Fixture.RoleAccountInformation]
                   (@QWACType Fixture.QC) [] 2%nat))) = None.
Proof.
  split; [reflexivity|]. split; [reflexivity|].
  apply (GenerateCSR_error_returns_nil (QC:=Fixture.QC) (P:=Fixture.P)
           "ZZ" "Foo Org" "Foo Org ID" "Foo Name" [Fixture.RoleAccountInformation]
           (@QWACType Fixture.QC) [] 2%nat).
  discriminate.
Defined.

(** ** The scenarios of the package's tests *)

(** TestKeyUsage and TestExtendedKeyUsage. *)
Lemma TestKeyUsage :
  keyUsageForType (QC:=Fixture.QC) (@QWACType Fixture.QC) =
    (Some [KeyUsageDigitalSignature], None) /\
  keyUsageForType (QC:=Fixture.QC) (@QSEALType Fixture.QC) =
    (Some [KeyUsageDigitalSignature; KeyUsageContentCommitment], None).
Proof. split; reflexivity. Qed.

Lemma TestExtendedKeyUsage :
  extendedKeyUsageForType (QC:=Fixture.QC) (@QWACType Fixture.QC) =
    (Some [tLSWWWServerAuthUsage; tLSWWWClientAuthUsage], None).
Proof. reflexivity. Qed.

(** TestBuildCSR, "CSR with DNS name": the request handed to the signer
    lists the two domains in the order of the options. *)
Lemma TestBuildCSR_DNSNames :
  exists req,
    assembleRequest (QC:=Fixture.QC) (P:=Fixture.P)
      "GB" "Foo Org" "Foo Org ID" "Foo Name" [Fixture.RoleAccountInformation]
      (@QWACType Fixture.QC) (crypto.RSASigner Fixture.textbookKey) = Ok req /\
    DNSNames (applyOptions [WithDNSName "foo.example.com"; WithDNSName "bar.example.com"] req) =
      ["foo.example.com"; "bar.example.com"].
Proof. eexists. split; reflexivity. Qed.

(** An unknown certificate type is reported by the first lookup, after the
    regulator lookup and the qcStatements encoding succeeded. *)
Lemma GenerateCSRWithKey_unknown_type :
  GenerateCSRWithKey (QC:=Fixture.QC) (P:=Fixture.P)
    "GB" "Foo Org" "Foo Org ID" "Foo Name" [Fixture.RoleAccountInformation]
    [0; 4; 0; 1862; 1; 6; 1] (crypto.RSASigner Fixture.textbookKey) [] 1%nat =
  ((None, Some "unknown QC type: 0.4.0.1862.1.6.1"), 1%nat).
Proof. reflexivity. Qed.


(** * Further properties of csr.go *)

(** ** Options *)

(** X1.  Running the options [WithDNSName d1, ..., WithDNSName dn] on any
    request appends [d1; ...; dn], in this order, to its DNS names and
    changes no other field. *)
Theorem WithDNSName_options_append (domains : list string) (req : CertificateRequest) :
  applyOptions (map WithDNSName domains) req =
  withDNSNames req (DNSNames req ++ domains).
Proof.
  unfold applyOptions. revert req.
  induction domains as [|d ds IH]; intros req; simpl.
  - destruct req; unfold withDNSNames; simpl. now rewrite app_nil_r.
  - rewrite IH. unfold withDNSNames, WithDNSName; simpl.
    now rewrite <- app_assoc.
Qed.

(** ** Outcomes of the request assembler *)

Section Outcomes.

Context {QC : qcstatements.Package} {P : Platform}.

Local Open Scope string_scope.

(** Both lookups succeed on the two known types, whether or not the two
    identifiers differ. *)
Lemma keyUsageForType_known (t : asn1.ObjectIdentifier) :
  t = QWACType \/ t = QSEALType ->
  exists keyUsage, keyUsageForType t = (Some keyUsage, None).
Proof.
  intros Hknown. unfold keyUsageForType.
  case_Equal; eauto. destruct Hknown; contradiction.
Qed.

Lemma extendedKeyUsageForType_known (t : asn1.ObjectIdentifier) :
  t = QWACType \/ t = QSEALType ->
  exists extendedKeyUsage, extendedKeyUsageForType t = (Some extendedKeyUsage, None).
Proof.
  intros Hknown. unfold extendedKeyUsageForType.
  case_Equal; eauto. destruct Hknown; contradiction.
Qed.

Lemma keyUsageForType_Some_known (t : asn1.ObjectIdentifier) (keyUsage : list KeyUsage) :
  keyUsageForType t = (Some keyUsage, None) -> t = QWACType \/ t = QSEALType.
Proof.
  unfold keyUsageForType. case_Equal; auto. discriminate.
Qed.

(** Every way [assembleRequest] can end, with the steps that passed before. *)
Lemma assembleRequest_cases
    (countryCode orgName orgID commonName : string)
    (roles : list Role) (qcType : asn1.ObjectIdentifier) (priv : crypto.Signer) :
  ((forall k, crypto.Public priv <> crypto.RSAPublicKey k) /\
   assembleRequest countryCode orgName orgID commonName roles qcType priv =
     Err ("only RSA keys are currently supported but got: "
            ++ crypto.typeName (crypto.Public priv))) \/
  (exists key e0,
     crypto.Public priv = crypto.RSAPublicKey key /\
     CompetentAuthorityForCountryCode countryCode = Err e0 /\
     assembleRequest countryCode orgName orgID commonName roles qcType priv =
       Err ("eidas: " ++ e0)) \/
  (exists key ca e0,
     crypto.Public priv = crypto.RSAPublicKey key /\
     CompetentAuthorityForCountryCode countryCode = Ok ca /\
     Serialize roles ca qcType = Err e0 /\
     assembleRequest countryCode orgName orgID commonName roles qcType priv =
       Err ("eidas: " ++ e0)) \/
  (exists key ca qc,
     crypto.Public priv = crypto.RSAPublicKey key /\
     CompetentAuthorityForCountryCode countryCode = Ok ca /\
     Serialize roles ca qcType = Ok qc /\
     qcType <> QWACType /\ qcType <> QSEALType /\
     assembleRequest countryCode orgName orgID commonName roles qcType priv =
       Err ("unknown QC type: " ++ asn1.String qcType)) \/
  (exists key ca qc e0,
     crypto.Public priv = crypto.RSAPublicKey key /\
     CompetentAuthorityForCountryCode countryCode = Ok ca /\
     Serialize roles ca qcType = Ok qc /\
     (qcType = QWACType \/ qcType = QSEALType) /\
     asn1_Marshal_RDNSequence (subjectRDNs countryCode orgName orgID commonName) = Err e0 /\
     assembleRequest countryCode orgName orgID commonName roles qcType priv =
       Err ("failed to build CSR subject: " ++ e0)) \/
  (exists key ca qc subject,
     crypto.Public priv = crypto.RSAPublicKey key /\
     CompetentAuthorityForCountryCode countryCode = Ok ca /\
     Serialize roles ca qcType = Ok qc /\
     (qcType = QWACType \/ qcType = QSEALType) /\
     asn1_Marshal_RDNSequence (subjectRDNs countryCode orgName orgID commonName) = Ok subject /\
     assembleRequest countryCode orgName orgID commonName roles qcType priv =
       Ok (assembled subject qcType key qc)).
Proof.
  unfold assembleRequest, assembled, bind, wrapErr, checked.
  destruct (crypto.Public priv) as [key| | |] eqn:Hpub;
    try (left; split; [intros ?; discriminate | reflexivity]).
  right.
  destruct (CompetentAuthorityForCountryCode countryCode) as [ca|e0] eqn:Hca;
    [|left; now exists key, e0].
  right.
  destruct (Serialize roles ca qcType) as [qc|e0] eqn:Hqc;
    [|left; now exists key, ca, e0].
  right.
  destruct (keyUsageForType qcType) as [ku [e|]] eqn:Hku; simpl.
  - left. exists key, ca, qc.
    revert Hku. unfold keyUsageForType. case_Equal; intros [= <- <-]; auto 10.
  - right.
    assert (Hknown : qcType = QWACType \/ qcType = QSEALType).
    { revert Hku. unfold keyUsageForType. case_Equal; auto. discriminate. }
    destruct (extendedKeyUsageForType_known qcType Hknown) as [eku ->]. simpl.
    rewrite buildSubject_returns.
    destruct (asn1_Marshal_RDNSequence _) as [subject|e0] eqn:Hsubject; simpl.
    + right. exists key, ca, qc, subject.
      repeat (split; [first [reflexivity | assumption]|]).
      unfold requestOf, extensionsOf.
      destruct (keyUsageForType_known qcType Hknown) as [ku' Hku'].
      rewrite Hku' in Hku. injection Hku as <-.
      destruct eku; reflexivity.
    + left. exists key, ca, qc, e0.
      repeat (split; [first [reflexivity | assumption]|]). reflexivity.
Qed.

End Outcomes.

Section BuildOutcomes.

Context {QC : qcstatements.Package} {P : Platform}.

Local Open Scope string_scope.

(** X2.  Every error of [GenerateCSRWithKey] comes with nil bytes and is one
    of six, tried in this order: the key is not RSA; the regulator lookup
    failed (prefix "eidas: "); the qcStatements encoding failed (same
    prefix); the type is neither QWAC nor QSEAL (the lookup's own message,
    no prefix); the subject could not be encoded; the signer failed.  Only
    the last one has read entropy. *)
Theorem GenerateCSRWithKey_error_cases
    (countryCode orgName orgID commonName : string) (roles : list Role)
    (qcType : asn1.ObjectIdentifier) (priv : crypto.Signer)
    (opts : list CertificateOption) (rand rand' : Entropy)
    (csr : nilable (list byte)) (e : error) :
  GenerateCSRWithKey countryCode orgName orgID commonName roles qcType priv opts rand =
    ((csr, Some e), rand') ->
  csr = None /\
  (((forall k, crypto.Public priv <> crypto.RSAPublicKey k) /\
    e = "only RSA keys are currently supported but got: "
          ++ crypto.typeName (crypto.Public priv) /\
    rand' = rand) \/
   (exists key e0,
      crypto.Public priv = crypto.RSAPublicKey key /\
      CompetentAuthorityForCountryCode countryCode = Err e0 /\
      e = "eidas: " ++ e0 /\ rand' = rand) \/
   (exists key ca e0,
      crypto.Public priv = crypto.RSAPublicKey key /\
      CompetentAuthorityForCountryCode countryCode = Ok ca /\
      Serialize roles ca qcType = Err e0 /\
      e = "eidas: " ++ e0 /\ rand' = rand) \/
   (exists key ca qc,
      crypto.Public priv = crypto.RSAPublicKey key /\
      CompetentAuthorityForCountryCode countryCode = Ok ca /\
      Serialize roles ca qcType = Ok qc /\
      qcType <> QWACType /\ qcType <> QSEALType /\
      e = "unknown QC type: " ++ asn1.String qcType /\ rand' = rand) \/
   (exists key ca qc e0,
      crypto.Public priv = crypto.RSAPublicKey key /\
      CompetentAuthorityForCountryCode countryCode = Ok ca /\
      Serialize roles ca qcType = Ok qc /\
      (qcType = QWACType \/ qcType = QSEALType) /\
      asn1_Marshal_RDNSequence (subjectRDNs countryCode orgName orgID commonName) = Err e0 /\
      e = "failed to build CSR subject: " ++ e0 /\ rand' = rand) \/
   (exists key ca qc subject e0,
      crypto.Public priv = crypto.RSAPublicKey key /\
      CompetentAuthorityForCountryCode countryCode = Ok ca /\
      Serialize roles ca qcType = Ok qc /\
      (qcType = QWACType \/ qcType = QSEALType) /\
      asn1_Marshal_RDNSequence (subjectRDNs countryCode orgName orgID commonName) = Ok subject /\
      x509_CreateCertificateRequest rand
        (applyOptions opts (assembled subject qcType key qc)) priv = (Err e0, rand') /\
      e = "failed to generate csr: " ++ e0)).
Proof.
  unfold GenerateCSRWithKey.
  destruct (assembleRequest_cases countryCode orgName orgID commonName roles qcType priv)
    as [(Hkey & ->)
       |[(key & e0 & Hpub & Hca & ->)
        |[(key & ca & e0 & Hpub & Hca & Hqc & ->)
         |[(key & ca & qc & Hpub & Hca & Hqc & Hq1 & Hq2 & ->)
          |[(key & ca & qc & e0 & Hpub & Hca & Hqc & Hknown & Hsubject & ->)
           |(key & ca & qc & subject & Hpub & Hca & Hqc & Hknown & Hsubject & ->)]]]]].
  - intros [= <- <- <-]. split; [reflexivity|]. left. auto.
  - intros [= <- <- <-]. split; [reflexivity|]. right; left. eauto 10.
  - intros [= <- <- <-]. split; [reflexivity|]. do 2 right; left. eauto 10.
  - intros [= <- <- <-]. split; [reflexivity|]. do 3 right; left.
    exists key, ca, qc. auto 10.
  - intros [= <- <- <-]. split; [reflexivity|]. do 4 right; left.
    exists key, ca, qc, e0. auto 10.
  - destruct (x509_CreateCertificateRequest _ _ _) as [[out|e0] rand1] eqn:Hsign;
      intros [= <- <- <-].
    split; [reflexivity|]. do 5 right.
    exists key, ca, qc, subject, e0. auto 10.
Qed.

(** X3.  [GenerateCSRWithKey] returns bytes and no error exactly when the
    key is RSA, the regulator lookup and the qcStatements encoding pass, the
    type is QWAC or QSEAL, the subject can be encoded and the signer
    succeeds on the assembled request after the options ran; the bytes are
    then the signer's. *)
Theorem GenerateCSRWithKey_succeeds_iff
    (countryCode orgName orgID commonName : string) (roles : list Role)
    (qcType : asn1.ObjectIdentifier) (priv : crypto.Signer)
    (opts : list CertificateOption) (rand rand' : Entropy) (csr : list byte) :
  GenerateCSRWithKey countryCode orgName orgID commonName roles qcType priv opts rand =
    ((Some csr, None), rand') <->
  exists key ca qc subject,
    crypto.Public priv = crypto.RSAPublicKey key /\
    CompetentAuthorityForCountryCode countryCode = Ok ca /\
    Serialize roles ca qcType = Ok qc /\
    (qcType = QWACType \/ qcType = QSEALType) /\
    asn1_Marshal_RDNSequence (subjectRDNs countryCode orgName orgID commonName) = Ok subject /\
    x509_CreateCertificateRequest rand
      (applyOptions opts (assembled subject qcType key qc)) priv = (Ok csr, rand').
Proof.
  unfold GenerateCSRWithKey.
  destruct (assembleRequest_cases countryCode orgName orgID commonName roles qcType priv)
    as [(Hkey & ->)
       |[(key & e0 & Hpub & Hca & ->)
        |[(key & ca & e0 & Hpub & Hca & Hqc & ->)
         |[(key & ca & qc & Hpub & Hca & Hqc & Hq1 & Hq2 & ->)
          |[(key & ca & qc & e0 & Hpub & Hca & Hqc & Hknown & Hsubject & ->)
           |(key & ca & qc & subject & Hpub & Hca & Hqc & Hknown & Hsubject & ->)]]]]].
  - split; [discriminate|].
    intros (key & _ & _ & _ & Hpub & _). now destruct (Hkey key).
  - split; [discriminate|].
    intros (_ & ca & _ & _ & _ & Hca' & _). congruence.
  - split; [discriminate|].
    intros (_ & ca' & qc & _ & _ & Hca' & Hqc' & _). congruence.
  - split; [discriminate|].
    intros (_ & _ & _ & _ & _ & _ & _ & [Hq | Hq] & _); contradiction.
  - split; [discriminate|].
    intros (_ & _ & _ & subject & _ & _ & _ & _ & Hsubject' & _). congruence.
  - split.
    + destruct (x509_CreateCertificateRequest _ _ _) as [[out|e0] rand1] eqn:Hsign;
        intros [= <- <-].
      exists key, ca, qc, subject. auto 10.
    + intros (key' & ca' & qc' & subject' & Hpub' & Hca' & Hqc' & _ & Hsubject' & Hsign).
      assert (key' = key) as -> by congruence.
      assert (ca' = ca) as -> by congruence.
      assert (qc' = qc) as -> by congruence.
      assert (subject' = subject) as -> by congruence.
      now rewrite Hsign.
Qed.

(** X4.  When the options are [WithDNSName] of a list of domains, the
    request the signer receives is the assembled one with exactly these
    domains as DNS names, in the order given; the version, the raw subject,
    the two algorithms and the extension list are those of the assembly. *)
Theorem GenerateCSRWithKey_DNS_names
    (countryCode orgName orgID commonName : string) (roles : list Role)
    (qcType : asn1.ObjectIdentifier) (priv : crypto.Signer)
    (domains : list string) (rand : Entropy) (req : CertificateRequest) :
  assembleRequest countryCode orgName orgID commonName roles qcType priv = Ok req ->
  req = requestOf (RawSubject req) (ExtraExtensions req) /\
  GenerateCSRWithKey countryCode orgName orgID commonName roles qcType priv
                     (map WithDNSName domains) rand =
  match x509_CreateCertificateRequest rand (withDNSNames req domains) priv with
  | (Ok csr, rand') => ((Some csr, None), rand')
  | (Err e0, rand') => ((None, Some ("failed to generate csr: " ++ e0)), rand')
  end.
Proof.
  intros Hreq. unfold GenerateCSRWithKey. rewrite Hreq.
  destruct (assembleRequest_Ok_inv _ _ _ _ _ _ _ _ Hreq)
    as (key & ca & qc & ku & eku & subject & _ & _ & _ & _ & _ & _ & Hlit).
  assert (Hnames : DNSNames req = []) by (subst req; reflexivity).
  split; [subst req; reflexivity|].
  pose proof (applyOptions_WithDNSName domains req) as Hopts. cbv zeta in Hopts.
  assert (Happly : applyOptions (map WithDNSName domains) req = withDNSNames req domains).
  { destruct Hopts as (H1 & H2 & H3 & H4 & H5 & H6).
    rewrite Hnames in H1. simpl in H1.
    destruct (applyOptions (map WithDNSName domains) req); simpl in *.
    unfold withDNSNames. congruence. }
  rewrite Happly. reflexivity.
Qed.

End BuildOutcomes.

(** ** The key usage word *)

Local Open Scope Z_scope.

Lemma lor_range (n a b : Z) :
  0 < n -> 0 <= a < 2 ^ n -> 0 <= b < 2 ^ n -> 0 <= Z.lor a b < 2 ^ n.
Proof.
  intros Hn Ha Hb.
  assert (Hnonneg : 0 <= Z.lor a b) by (apply Z.lor_nonneg; lia).
  split; [assumption|].
  destruct (Z.eq_dec (Z.lor a b) 0) as [-> | Hnz]; [apply Z.pow_pos_nonneg; lia|].
  apply Z.log2_lt_pow2; [lia|].
  rewrite Z.log2_lor by lia.
  apply Z.max_lub_lt.
  - destruct (Z.eq_dec a 0) as [-> | Ha0]; [simpl; lia|].
    apply Z.log2_lt_pow2; lia.
  - destruct (Z.eq_dec b 0) as [-> | Hb0]; [simpl; lia|].
    apply Z.log2_lt_pow2; lia.
Qed.

(** The bit one usage value contributes: [1 << (8 - usage)] for the values
    from -7 to 8, nothing for any other [int], because the unsigned shift
    count then is 16 or more. *)
Lemma usage_word (usage : Z) :
  - 2 ^ 63 <= usage < 2 ^ 63 ->
  uint16_shl 1 (uint_sub 8 (uint usage)) =
  if (-8 <? usage) && (usage <=? 8) then 2 ^ (8 - usage) else 0.
Proof.
  intros Hint. unfold uint16_shl, uint_sub, uint.
  assert (Hcount : (8 - usage mod 2 ^ 64) mod 2 ^ 64 =
                   if usage <=? 8 then 8 - usage else 2 ^ 64 + 8 - usage).
  { destruct (Z_lt_le_dec usage 0) as [Hneg | Hpos].
    - assert (Hu : usage mod 2 ^ 64 = usage + 2 ^ 64)
        by (symmetry; apply (Z.mod_unique _ _ (-1)); lia).
      rewrite Hu. destruct (usage <=? 8) eqn:Hle; [|apply Z.leb_gt in Hle; lia].
      symmetry. apply (Z.mod_unique _ _ (-1)); lia.
    - rewrite (Z.mod_small usage) by lia.
      destruct (usage <=? 8) eqn:Hle.
      + apply Z.leb_le in Hle. apply Z.mod_small. lia.
      + apply Z.leb_gt in Hle. symmetry. apply (Z.mod_unique _ _ (-1)); lia. }
  rewrite Hcount.
  destruct (usage <=? 8) eqn:Hle.
  - apply Z.leb_le in Hle. rewrite andb_true_r.
    destruct (-8 <? usage) eqn:Hlow.
    + apply Z.ltb_lt in Hlow.
      destruct (8 - usage <? 16) eqn:Hs; [|apply Z.ltb_ge in Hs; lia].
      rewrite Z.shiftl_1_l. apply Z.mod_small.
      split; [apply Z.pow_nonneg; lia|].
      apply Z.pow_lt_mono_r; lia.
    + apply Z.ltb_ge in Hlow.
      destruct (8 - usage <? 16) eqn:Hs; [apply Z.ltb_lt in Hs; lia|reflexivity].
  - apply Z.leb_gt in Hle. rewrite andb_false_r.
    destruct (2 ^ 64 + 8 - usage <? 16) eqn:Hs; [apply Z.ltb_lt in Hs; lia|reflexivity].
Qed.

(** The accumulator is the bitwise or of the words of the usages. *)
Lemma keyUsageBits_fold (usages : list KeyUsage) (x : Z) :
  fold_left (fun x usage => Z.lor x (uint16_shl 1 (uint_sub 8 (uint usage)))) usages x =
  Z.lor x (keyUsageBits usages).
Proof.
  unfold keyUsageBits. revert x.
  induction usages as [|usage usages IH]; intros x; simpl.
  - now rewrite Z.lor_0_r.
  - rewrite IH, (IH (uint16_shl 1 _)). now rewrite Z.lor_assoc.
Qed.

Lemma keyUsageBits_cons (usage : KeyUsage) (usages : list KeyUsage) :
  keyUsageBits (usage :: usages) =
  Z.lor (uint16_shl 1 (uint_sub 8 (uint usage))) (keyUsageBits usages).
Proof.
  unfold keyUsageBits at 1. simpl. apply keyUsageBits_fold.
Qed.

Lemma keyUsageBits_app (usages1 usages2 : list KeyUsage) :
  keyUsageBits (usages1 ++ usages2) = Z.lor (keyUsageBits usages1) (keyUsageBits usages2).
Proof.
  unfold keyUsageBits at 1. rewrite fold_left_app.
  fold (keyUsageBits usages1). apply keyUsageBits_fold.
Qed.

Lemma keyUsageBits_testbit (usages : list KeyUsage) (n : Z) :
  Z.testbit (keyUsageBits usages) n =
  existsb (fun usage => Z.testbit (uint16_shl 1 (uint_sub 8 (uint usage))) n) usages.
Proof.
  induction usages as [|usage usages IH].
  - apply Z.testbit_0_l.
  - rewrite keyUsageBits_cons, Z.lor_spec, IH. reflexivity.
Qed.

(** X5.  A single usage value sets the bit [1 << (8 - usage)] when it lies
    between -7 and 8 and no bit at all otherwise: the count is 8 minus the
    flag's value, so of the nine x509 flags only DigitalSignature (1),
    ContentCommitment (2), KeyEncipherment (4) and DataEncipherment (8) set
    a bit, and every flag from KeyAgreement (16) on is dropped. *)
Theorem keyUsageBits_single (usage : KeyUsage) :
  - 2 ^ 63 <= usage < 2 ^ 63 ->
  keyUsageBits [usage] =
  if (-8 <? usage) && (usage <=? 8) then 2 ^ (8 - usage) else 0.
Proof.
  intros Hint. rewrite keyUsageBits_cons.
  change (keyUsageBits []) with 0. rewrite Z.lor_0_r.
  now apply usage_word.
Qed.

(** X6.  The key usage word depends only on which usage values occur in
    the list, not on their order nor on repetitions. *)
Theorem keyUsageBits_set (usages1 usages2 : list KeyUsage) :
  (forall usage, In usage usages1 <-> In usage usages2) ->
  keyUsageBits usages1 = keyUsageBits usages2.
Proof.
  intros Hsame. apply Z.bits_inj. intros n.
  rewrite !keyUsageBits_testbit.
  apply eq_true_iff_eq. rewrite !existsb_exists.
  split; intros (usage & Hin & Hbit); exists usage; split; auto; now apply Hsame.
Qed.

(** X7.  For usage values that are positive, as all x509 flags are, the
    word fits the first content byte: the payload of the extension is
    always the five bytes 03 03 00 b 00 with [b] the word, a two-byte bit
    string that announces no unused bit and whose second byte is zero. *)
Theorem keyUsageExtension_payload (usages : list KeyUsage) :
  Forall (fun usage => 1 <= usage < 2 ^ 63) usages ->
  0 <= keyUsageBits usages < 256 /\
  Value (keyUsageExtension usages) = [0x03; 0x03; 0x00; keyUsageBits usages; 0x00].
Proof.
  intros Hpos.
  assert (Hbyte : 0 <= keyUsageBits usages < 2 ^ 8).
  { induction Hpos as [|usage usages Husage _ IH].
    - change (keyUsageBits []) with 0. lia.
    - rewrite keyUsageBits_cons. apply lor_range; [lia| |exact IH].
      rewrite usage_word by lia.
      destruct ((-8 <? usage) && (usage <=? 8)) eqn:Hin; [|lia].
      apply andb_true_iff in Hin as [_ Hle]. apply Z.leb_le in Hle.
      split; [apply Z.pow_nonneg; lia|].
      apply Z.pow_lt_mono_r; lia. }
  change (2 ^ 8) with 256 in Hbyte.
  split; [exact Hbyte|].
  rewrite keyUsageExtension_Value.
  rewrite Z.mod_small by exact Hbyte.
  rewrite Z.shiftr_div_pow2 by lia. change (2 ^ 8) with 256.
  rewrite Z.div_small by exact Hbyte. reflexivity.
Qed.

(** ** The extended key usage payload *)




(** ** Key provisioning *)

Section Provisioning.

Context {QC : qcstatements.Package} {P : Platform}.

Local Open Scope string_scope.

(** X9.  When [GenerateCSR] returns no error, it returns non-nil bytes and
    a non-nil key: the key is the one [rsa.GenerateKey] produced, the bytes
    are the signer's output for the request assembled with that key as the
    signing key, signed with the entropy left after key generation, and the
    request carries the subject key identifier of that key's public half. *)
Theorem GenerateCSR_success
    (countryCode orgName orgID commonName : string) (roles : list Role)
    (qcType : asn1.ObjectIdentifier) (opts : list CertificateOption) (rand : Entropy) :
  snd (fst (GenerateCSR countryCode orgName orgID commonName roles qcType opts rand)) = None ->
  exists key rand1 req csr rand2,
    rsa_GenerateKey rand 2048%Z = (Ok key, rand1) /\
    assembleRequest countryCode orgName orgID commonName roles qcType
                    (crypto.RSASigner key) = Ok req /\
    x509_CreateCertificateRequest rand1 (applyOptions opts req) (crypto.RSASigner key) =
      (Ok csr, rand2) /\
    GenerateCSR countryCode orgName orgID commonName roles qcType opts rand =
      ((Some csr, Some key, None), rand2) /\
    In (subjectKeyIdentifier (rsa.Public_Key key)) (ExtraExtensions req).
Proof.
  unfold GenerateCSR.
  destruct (rsa_GenerateKey rand 2048%Z) as [[key|e0] rand1] eqn:Hgen; [|discriminate].
  pose proof (GenerateCSRWithKey_success_inv countryCode orgName orgID commonName
                roles qcType (crypto.RSASigner key) opts rand1) as Hinv.
  destruct (GenerateCSRWithKey _ _ _ _ _ _ _ _ _) as [[out [e|]] rand2]; [discriminate|].
  intros _. destruct (Hinv eq_refl) as (req & csr & rand2' & Hreq & Hsign & [= -> ->]).
  exists key, rand1, req, csr, rand2'.
  repeat (split; [first [reflexivity | assumption]|]).
  destruct (assembleRequest_Ok_inv _ _ _ _ _ _ _ _ Hreq)
    as (key' & ca & qc & ku & eku & subject & Hpub & _ & _ & _ & _ & _ & ->).
  injection Hpub as <-. cbn [ExtraExtensions]. unfold extensionsOf.
  apply in_or_app. right. apply in_or_app. right. now left.
Qed.

(** X10.  An error of [GenerateCSR] is either the key generation error,
    wrapped, with nothing else run, or the unchanged error of
    [GenerateCSRWithKey] on the generated key; the latter is never the
    key-type error, since the generated key is an RSA key. *)
Theorem GenerateCSR_error_cases
    (countryCode orgName orgID commonName : string) (roles : list Role)
    (qcType : asn1.ObjectIdentifier) (opts : list CertificateOption)
    (rand rand' : Entropy) (csr : nilable (list byte)) (key : nilable rsa.PrivateKey)
    (e : error) :
  GenerateCSR countryCode orgName orgID commonName roles qcType opts rand =
    ((csr, key, Some e), rand') ->
  (exists e0,
     rsa_GenerateKey rand 2048%Z = (Err e0, rand') /\
     e = "failed to generate key pair: " ++ e0) \/
  (exists generated rand1,
     rsa_GenerateKey rand 2048%Z = (Ok generated, rand1) /\
     GenerateCSRWithKey countryCode orgName orgID commonName roles qcType
                        (crypto.RSASigner generated) opts rand1 = ((None, Some e), rand') /\
     forall found, e <> "only RSA keys are currently supported but got: " ++ found).
Proof.
  unfold GenerateCSR.
  destruct (rsa_GenerateKey rand 2048%Z) as [[generated|e0] rand1] eqn:Hgen.
  - pose proof (GenerateCSRWithKey_error_nil countryCode orgName orgID commonName
                  roles qcType (crypto.RSASigner generated) opts rand1) as Hnil.
    unfold GenerateCSRWithKey in *.
    destruct (assembleRequest_cases countryCode orgName orgID commonName roles qcType
                (crypto.RSASigner generated))
      as [(Hkey & Hreq)
         |[(k & e1 & _ & _ & Hreq)
          |[(k & ca & e1 & _ & _ & _ & Hreq)
           |[(k & ca & qc & _ & _ & _ & _ & _ & Hreq)
            |[(k & ca & qc & e1 & _ & _ & _ & _ & _ & Hreq)
             |(k & ca & qc & subject & _ & _ & _ & _ & _ & Hreq)]]]]];
      rewrite Hreq in *; clear Hnil; simpl.
    + now destruct (Hkey (rsa.Public_Key generated)).
    + intros [= <- <- <- <-]. right. exists generated, rand1.
      split; [reflexivity|]. split; [rewrite Hreq; reflexivity|].
      intros found; discriminate.
    + intros [= <- <- <- <-]. right. exists generated, rand1.
      split; [reflexivity|]. split; [rewrite Hreq; reflexivity|].
      intros found; discriminate.
    + intros [= <- <- <- <-]. right. exists generated, rand1.
      split; [reflexivity|]. split; [rewrite Hreq; reflexivity|].
      intros found; discriminate.
    + intros [= <- <- <- <-]. right. exists generated, rand1.
      split; [reflexivity|]. split; [rewrite Hreq; reflexivity|].
      intros found; discriminate.
    + destruct (x509_CreateCertificateRequest _ _ _) as [[out|e1] rand2] eqn:Hsign;
        intros [= <- <- <- <-].
      right. exists generated, rand1.
      split; [reflexivity|]. split; [rewrite Hreq, Hsign; reflexivity|].
      intros found; discriminate.
  - intros [= <- <- <- <-]. left. now exists e0.
Qed.

End Provisioning.

(** ** The assertion helper of the tests *)

Section Helper.

Context {QC : qcstatements.Package} {P : Platform}.
Variable Sprint : list eidas_test.any -> string.

Local Open Scope string_scope.

Lemma existsb_Equal (exts : list Extension) (ex : asn1.ObjectIdentifier) :
  existsb (fun ext => asn1.Equal (Id ext) ex) exts = true <->
  exists ext, In ext exts /\ Id ext = ex.
Proof.
  rewrite existsb_exists.
  split; intros (ext & Hin & Hid); exists ext; split; auto; now apply Equal_spec.
Qed.

(** X11.  [shouldContainID] reports success (the empty string) exactly when
    its first argument is a list of extensions, its second argument starts
    with an object identifier, and some extension of the list has that
    identifier; it panics exactly when the first argument is a list of
    extensions and no expected value is given. *)
Theorem shouldContainID_passes_iff
    (actual : eidas_test.any) (expected : list eidas_test.any) :
  (eidas_test.shouldContainID Sprint actual expected = Some "" <->
   exists exts ex rest ext,
     actual = eidas_test.Extensions exts /\
     expected = eidas_test.ObjectIdentifier ex :: rest /\
     In ext exts /\ Id ext = ex) /\
  (eidas_test.shouldContainID Sprint actual expected = None <->
   exists exts, actual = eidas_test.Extensions exts /\ expected = []).
Proof.
  unfold eidas_test.shouldContainID. split; split.
  - destruct actual as [exts|oid|goType]; try discriminate.
    destruct expected as [|[exts'|ex|goType] rest]; try discriminate.
    destruct (existsb _ exts) eqn:Hfound; [|discriminate].
    intros _. apply existsb_Equal in Hfound as (ext & Hin & Hid).
    now exists exts, ex, rest, ext.
  - intros (exts & ex & rest & ext & -> & -> & Hin & Hid).
    assert (Hfound : existsb (fun ext => asn1.Equal (Id ext) ex) exts = true)
      by (apply existsb_Equal; eauto).
    now rewrite Hfound.
  - destruct actual as [exts|oid|goType]; try discriminate.
    destruct expected as [|[exts'|ex|goType] rest]; try discriminate.
    + intros _. now exists exts.
    + destruct (existsb _ exts); discriminate.
  - intros (exts & -> & ->). reflexivity.
Qed.

(** X12.  Every QWAC build that returns no error assembled a request with
    exactly four extensions on which the helper finds the three identifiers
    the test asks for: qcStatements, key usage (2.5.29.15) and extended key
    usage (2.5.29.37). *)
Theorem QWAC_build_contains_tested_ids
    (countryCode orgName orgID commonName : string) (roles : list Role)
    (priv : crypto.Signer) (opts : list CertificateOption) (rand : Entropy) :
  snd (fst (GenerateCSRWithKey countryCode orgName orgID commonName roles QWACType
                               priv opts rand)) = None ->
  exists req,
    assembleRequest countryCode orgName orgID commonName roles QWACType priv = Ok req /\
    length (ExtraExtensions req) = 4%nat /\
    Forall (fun oid =>
              eidas_test.shouldContainID Sprint
                (eidas_test.Extensions (ExtraExtensions req))
                [eidas_test.ObjectIdentifier oid] = Some "")
           [QCStatementsExt; [2; 5; 29; 15]%Z; [2; 5; 29; 37]%Z].
Proof.
  intros Hok.
  destruct (GenerateCSRWithKey_success_inv _ _ _ _ _ _ _ _ _ Hok)
    as (req & csr & rand' & Hreq & _ & _).
  exists req. split; [assumption|].
  destruct (assembleRequest_Ok_inv _ _ _ _ _ _ _ _ Hreq)
    as (key & ca & qc & ku & eku & subject & _ & _ & _ & _ & Heku & _ & ->).
  rewrite extendedKeyUsageForType_QWAC in Heku. injection Heku as <-.
  cbn [ExtraExtensions]. split; [reflexivity|].
  repeat constructor.
Qed.

End Helper.

(** ** The further properties at concrete inputs *)

Local Open Scope string_scope.

(** The unsupported type id-etsi-qct-esign with a known country and an RSA
    key: the fourth of the six errors. *)
Lemma GenerateCSRWithKey_error_cases_witness :
  GenerateCSRWithKey (QC:=Fixture.QC) (P:=Fixture.P)
    "GB" "Foo Org" "Foo Org ID" "Foo Name" [Fixture.RoleAccountInformation]
    [0; 4; 0; 1862; 1; 6; 1]%Z (crypto.RSASigner Fixture.textbookKey) [] 1%nat =
    ((None, Some "unknown QC type: 0.4.0.1862.1.6.1"), 1%nat) /\
  [0; 4; 0; 1862; 1; 6; 1]%Z <> @QWACType Fixture.QC /\
  [0; 4; 0; 1862; 1; 6; 1]%Z <> @QSEALType Fixture.QC.
Proof.
  split; [reflexivity|].
  destruct (GenerateCSRWithKey_error_cases (QC:=Fixture.QC) (P:=Fixture.P)
              "GB" "Foo Org" "Foo Org ID" "Foo Name" [Fixture.RoleAccountInformation]
              [0; 4; 0; 1862; 1; 6; 1]%Z (crypto.RSASigner Fixture.textbookKey) []
              1%nat 1%nat None "unknown QC type: 0.4.0.1862.1.6.1" eq_refl)
    as (_ & [(_ & He & _)
            |[(key & e0 & _ & _ & He & _)
             |[(key & ca & e0 & _ & _ & _ & He & _)
              |[(key & ca & qc & _ & _ & _ & Hq1 & Hq2 & _)
               |[(key & ca & qc & e0 & _ & _ & _ & _ & _ & He & _)
                |(key & ca & qc & subject & e0 & _ & _ & _ & _ & _ & _ & He)]]]]]);
    try discriminate He.
  split; assumption.
Defined.

(** The test with two DNS names. *)
Lemma GenerateCSRWithKey_DNS_names_witness :
  exists req,
    assembleRequest (QC:=Fixture.QC) (P:=Fixture.P)
      "GB" "Foo Org" "Foo Org ID" "Foo Name" [Fixture.RoleAccountInformation]
      (@QWACType Fixture.QC) (crypto.RSASigner Fixture.textbookKey) = Ok req /\
    DNSNames (withDNSNames req ["foo.example.com"; "bar.example.com"]) =
      ["foo.example.com"; "bar.example.com"] /\
    GenerateCSRWithKey (QC:=Fixture.QC) (P:=Fixture.P)
      "GB" "Foo Org" "Foo Org ID" "Foo Name" [Fixture.RoleAccountInformation]
      (@QWACType Fixture.QC) (crypto.RSASigner Fixture.textbookKey)
      (map WithDNSName ["foo.example.com"; "bar.example.com"]) 1%nat =
    match x509_CreateCertificateRequest (Platform:=Fixture.P) 1%nat
            (withDNSNames req ["foo.example.com"; "bar.example.com"])
            (crypto.RSASigner Fixture.textbookKey) with
    | (Ok csr, rand') => ((Some csr, None), rand')
    | (Err e0, rand') => ((None, Some ("failed to generate csr: " ++ e0)), rand')
    end.
Proof.
  eexists. split; [reflexivity|]. split; [reflexivity|].
  exact (proj2 (GenerateCSRWithKey_DNS_names (QC:=Fixture.QC) (P:=Fixture.P)
                  "GB" "Foo Org" "Foo Org ID" "Foo Name" [Fixture.RoleAccountInformation]
                  (@QWACType Fixture.QC) (crypto.RSASigner Fixture.textbookKey)
                  ["foo.example.com"; "bar.example.com"] 1%nat _ eq_refl)).
Defined.

(** KeyEncipherment, flag number 2, lands on the bit of flag number 3. *)
Lemma keyUsageBits_single_witness :
  (- 2 ^ 63 <= KeyUsageKeyEncipherment < 2 ^ 63)%Z /\
  keyUsageBits [KeyUsageKeyEncipherment] = 0x10%Z.
Proof.
  assert (Hint : (- 2 ^ 63 <= KeyUsageKeyEncipherment < 2 ^ 63)%Z)
    by (unfold KeyUsageKeyEncipherment; lia).
  split; [exact Hint|].
  exact (keyUsageBits_single KeyUsageKeyEncipherment Hint).
Defined.

(** The QSEAL set, reordered and with a repetition. *)
Lemma keyUsageBits_set_witness :
  (forall usage,
     In usage [KeyUsageDigitalSignature; KeyUsageContentCommitment] <->
     In usage [KeyUsageContentCommitment; KeyUsageDigitalSignature;
               KeyUsageDigitalSignature]) /\
  keyUsageBits [KeyUsageDigitalSignature; KeyUsageContentCommitment] =
  keyUsageBits [KeyUsageContentCommitment; KeyUsageDigitalSignature;
                KeyUsageDigitalSignature].
Proof.
  assert (Hsame : forall usage,
             In usage [KeyUsageDigitalSignature; KeyUsageContentCommitment] <->
             In usage [KeyUsageContentCommitment; KeyUsageDigitalSignature;
                       KeyUsageDigitalSignature])
    by (intros usage; simpl; tauto).
  split; [exact Hsame|].
  exact (keyUsageBits_set _ _ Hsame).
Defined.

(** The QSEAL set. *)
Lemma keyUsageExtension_payload_witness :
  Forall (fun usage => (1 <= usage < 2 ^ 63)%Z)
         [KeyUsageDigitalSignature; KeyUsageContentCommitment] /\
  Value (keyUsageExtension [KeyUsageDigitalSignature; KeyUsageContentCommitment]) =
    [0x03; 0x03; 0x00; 0xC0; 0x00]%Z.
Proof.
  assert (Hpos : Forall (fun usage => (1 <= usage < 2 ^ 63)%Z)
                        [KeyUsageDigitalSignature; KeyUsageContentCommitment])
    by (repeat constructor;
        unfold KeyUsageDigitalSignature, KeyUsageContentCommitment; lia).
  split; [exact Hpos|].
  exact (proj2 (keyUsageExtension_payload _ Hpos)).
Defined.

(** The QWAC test request, with the key the generator hands out. *)
Lemma GenerateCSR_success_witness :
  snd (fst (GenerateCSR (QC:=Fixture.QC) (P:=Fixture.P)
              "GB" "Foo Org" "Foo Org ID" "Foo Name" [Fixture.RoleAccountInformation]
              (@QWACType Fixture.QC) [] 2%nat)) = None /\
  exists key,
    rsa_GenerateKey (Platform:=Fixture.P) 2%nat 2048%Z = (Ok key, 1%nat) /\
    snd (fst (fst (GenerateCSR (QC:=Fixture.QC) (P:=Fixture.P)
                     "GB" "Foo Org" "Foo Org ID" "Foo Name"
                     [Fixture.RoleAccountInformation]
                     (@QWACType Fixture.QC) [] 2%nat))) = Some key.
Proof.
  split; [reflexivity|].
  destruct (GenerateCSR_success (QC:=Fixture.QC) (P:=Fixture.P)
              "GB" "Foo Org" "Foo Org ID" "Foo Name" [Fixture.RoleAccountInformation]
              (@QWACType Fixture.QC) [] 2%nat eq_refl)
    as (key & rand1 & req & csr & rand2 & Hgen & _ & _ & Hout & _).
  exists key. split.
  - injection Hgen as <- <-. reflexivity.
  - rewrite Hout. reflexivity.
Defined.

(** A country without a regulator: the error is the delegated call's. *)
Lemma GenerateCSR_error_cases_witness :
  GenerateCSR (QC:=Fixture.QC) (P:=Fixture.P)
    "ZZ" "Foo Org" "Foo Org ID" "Foo Name" [Fixture.RoleAccountInformation]
    (@QWACType Fixture.QC) [] 2%nat =
    ((None, None, Some "eidas: unknown country code: ZZ"), 1%nat) /\
  exists generated,
    GenerateCSRWithKey (QC:=Fixture.QC) (P:=Fixture.P)
      "ZZ" "Foo Org" "Foo Org ID" "Foo Name" [Fixture.RoleAccountInformation]
      (@QWACType Fixture.QC) (crypto.RSASigner generated) [] 1%nat =
      ((None, Some "eidas: unknown country code: ZZ"), 1%nat).
Proof.
  split; [reflexivity|].
  destruct (GenerateCSR_error_cases (QC:=Fixture.QC) (P:=Fixture.P)
              "ZZ" "Foo Org" "Foo Org ID" "Foo Name" [Fixture.RoleAccountInformation]
              (@QWACType Fixture.QC) [] 2%nat 1%nat None None
              "eidas: unknown country code: ZZ" eq_refl)
    as [(e0 & Hgen & _) | (generated & rand1 & Hgen & Hbuilt & _)].
  - discriminate Hgen.
  - exists generated. injection Hgen as _ <-. exact Hbuilt.
Defined.

(** The QWAC test request passes the three assertions of the test. *)
Lemma QWAC_build_contains_tested_ids_witness :
  snd (fst (GenerateCSRWithKey (QC:=Fixture.QC) (P:=Fixture.P)
              "GB" "Foo Org" "Foo Org ID" "Foo Name" [Fixture.RoleAccountInformation]
              (@QWACType Fixture.QC) (crypto.RSASigner Fixture.textbookKey) [] 1%nat)) = None /\
  exists req,
    assembleRequest (QC:=Fixture.QC) (P:=Fixture.P)
      "GB" "Foo Org" "Foo Org ID" "Foo Name" [Fixture.RoleAccountInformation]
      (@QWACType Fixture.QC) (crypto.RSASigner Fixture.textbookKey) = Ok req /\
    eidas_test.shouldContainID (fun _ => "[2.5.29.37]")
      (eidas_test.Extensions (ExtraExtensions req))
      [eidas_test.ObjectIdentifier [2; 5; 29; 37]%Z] = Some "".
Proof.
  split; [reflexivity|].
  destruct (QWAC_build_contains_tested_ids (QC:=Fixture.QC) (P:=Fixture.P)
              (fun _ => "[2.5.29.37]")
              "GB" "Foo Org" "Foo Org ID" "Foo Name" [Fixture.RoleAccountInformation]
              (crypto.RSASigner Fixture.textbookKey) [] 1%nat eq_refl)
    as (req & Hreq & _ & Hids).
  exists req. split; [exact Hreq|].
  inversion Hids as [|? ? _ Hrest]. inversion Hrest as [|? ? _ Hrest'].
  inversion Hrest' as [|? ? Hthird _]. exact Hthird.
Defined.
